(** * Supplier compliance monitor: metric classification and weather adjudication

    A shallow embedding of the decision logic of the backend:
    - [app/routers/compliance.py]: [check_compliance], [create_compliance_record];
    - [app/weather_service.py]: [analyze_adverse_weather], [_generate_justification],
      [get_historical_weather], [get_coordinates_from_country];
    - [app/routers/suppliers.py]: [check_weather_impact];
    - [app/ai_service.py]: [analyze_compliance_data];
    - [app/routers/insights.py]: [get_compliance_summary].

    Python values that arrive as JSON are modelled by the type [json];
    exceptions by the error monad [outcome].  Python floats are modelled by
    rationals: every finite float is a rational and the comparisons used by
    the code agree with those on [Q]; the non-finite floats are outside the
    model.  Strings are byte strings: the case conversions act on the ASCII
    letters and leave every other byte unchanged.

    The store is the PostgreSQL database of the migration
    [alembic/versions/001_initial.py], reached through psycopg2: the score
    that [check_compliance] assigns is written to the [Integer] column
    [compliance_score] of [app/models.py] and read back, so the score kept
    and returned is an integer. *)

From Stdlib Require Import ZArith QArith Qround Bool List String Ascii Lia Lqa DecimalString.
Import ListNotations.

Set Warnings "-register-all".
Local Open Scope string_scope.
Local Open Scope Z_scope.

(** ** Python run-time values *)

Inductive json : Type :=
| JNull
| JBool (b : bool)
| JInt (z : Z)
| JFloat (q : Q)
| JStr (s : string)
| JList (l : list json)
| JObj (kvs : list (string * json)).

Inductive exn : Type :=
| IndexError
| KeyError
| TypeError
| AttributeError
| DBAPIError
| HTTPException (status_code : Z).

Inductive outcome (A : Type) : Type :=
| Ok (a : A)
| Raise (e : exn).

Arguments Ok {A} a.
Arguments Raise {A} e.

Definition bind {A B : Type} (m : outcome A) (k : A -> outcome B) : outcome B :=
  match m with
  | Ok a => k a
  | Raise e => Raise e
  end.

Notation "x <- m ;; k" := (bind m (fun x => k))
  (at level 61, m at next level, right associativity).

(** The number a value denotes in a comparison or an f-string; [bool] is a
    subclass of [int]. *)
Inductive number : Type :=
| NBool (b : bool)
| NInt (z : Z)
| NFloat (q : Q).

Definition number_value (n : number) : Q :=
  match n with
  | NBool b => if b then 1%Q else 0%Q
  | NInt z => inject_Z z
  | NFloat q => q
  end.

(** What the interpreter and the external services supply: the [repr] of a
    float, the geocoder, the historical weather request and
    [datetime.strptime(_, "%Y-%m-%d").date()]. *)
Record date : Type := mkDate { year : Z; month : Z; day : Z }.

Class Collaborators : Type := {
  float_repr : Q -> string;
  get_coordinates_from_country : string -> option (Q * Q);
  get_historical_weather : Q -> Q -> string -> json;
  strptime_date : string -> option date
}.

Definition number_str `{Collaborators} (n : number) : string :=
  match n with
  | NBool b => if b then "True" else "False"
  | NInt z => NilZero.string_of_int (Z.to_int z)
  | NFloat q => float_repr q
  end.

(** [bool(v)] *)
Definition truthy (v : json) : bool :=
  match v with
  | JNull => false
  | JBool b => b
  | JInt z => negb (z =? 0)
  | JFloat q => negb (Qeq_bool q 0)
  | JStr s => negb (s =? "")%string
  | JList l => match l with [] => false | _ :: _ => true end
  | JObj kvs => match kvs with [] => false | _ :: _ => true end
  end.

(** A dict read from JSON: its items in order, one per key. *)
Fixpoint lookup (k : string) (kvs : list (string * json)) : option json :=
  match kvs with
  | [] => None
  | (k', v) :: rest => if (k =? k')%string then Some v else lookup k rest
  end.

(** [v.get(k, default)] *)
Definition py_get (v : json) (k : string) (default : json) : outcome json :=
  match v with
  | JObj kvs => Ok (match lookup k kvs with Some x => x | None => default end)
  | _ => Raise AttributeError
  end.

(** [v[k]] for a string [k] *)
Definition py_getitem (v : json) (k : string) : outcome json :=
  match v with
  | JObj kvs => match lookup k kvs with Some x => Ok x | None => Raise KeyError end
  | _ => Raise TypeError
  end.

(** [v[0]] *)
Definition py_getitem0 (v : json) : outcome json :=
  match v with
  | JList [] => Raise IndexError
  | JList (x :: _) => Ok x
  | JStr EmptyString => Raise IndexError
  | JStr (String c _) => Ok (JStr (String c EmptyString))
  | JObj _ => Raise KeyError
  | _ => Raise TypeError
  end.

(** [k in s] on strings *)
Fixpoint contains (k s : string) : bool :=
  prefix k s ||
  match s with
  | EmptyString => false
  | String _ s' => contains k s'
  end.

Definition is_str (k : string) (v : json) : bool :=
  match v with
  | JStr s => (k =? s)%string
  | _ => false
  end.

(** [k in v] for a string [k] *)
Definition py_in (k : string) (v : json) : outcome bool :=
  match v with
  | JObj kvs => Ok (match lookup k kvs with Some _ => true | None => false end)
  | JList l => Ok (existsb (is_str k) l)
  | JStr s => Ok (contains k s)
  | _ => Raise TypeError
  end.

Definition is_upper (c : ascii) : bool :=
  ((65 <=? nat_of_ascii c) && (nat_of_ascii c <=? 90))%nat.

Definition is_lower (c : ascii) : bool :=
  ((97 <=? nat_of_ascii c) && (nat_of_ascii c <=? 122))%nat.

Definition to_lower (c : ascii) : ascii :=
  if is_upper c then ascii_of_nat (nat_of_ascii c + 32) else c.

Definition to_upper (c : ascii) : ascii :=
  if is_lower c then ascii_of_nat (nat_of_ascii c - 32) else c.

(** [s.lower()] *)
Fixpoint lower (s : string) : string :=
  match s with
  | EmptyString => EmptyString
  | String c s' => String (to_lower c) (lower s')
  end.

(** [v.lower()] *)
Definition py_lower (v : json) : outcome string :=
  match v with
  | JStr s => Ok (lower s)
  | _ => Raise AttributeError
  end.

(** [s.replace(a, b)] for single characters *)
Fixpoint replace (a b : ascii) (s : string) : string :=
  match s with
  | EmptyString => EmptyString
  | String c s' => String (if Ascii.eqb c a then b else c) (replace a b s')
  end.

(** [s.title()]: a letter is upper-cased after a character that is not a
    letter and lower-cased after a letter. *)
Fixpoint title_from (previous_is_cased : bool) (s : string) : string :=
  match s with
  | EmptyString => EmptyString
  | String c s' =>
      String (if previous_is_cased then to_lower c else to_upper c)
             (title_from (is_upper c || is_lower c) s')
  end.

Definition title (s : string) : string := title_from false s.

(** The operand of a comparison with an [int] constant: anything that is
    not a number raises [TypeError]. *)
Definition py_number (v : json) : outcome number :=
  match v with
  | JBool b => Ok (NBool b)
  | JInt z => Ok (NInt z)
  | JFloat q => Ok (NFloat q)
  | _ => Raise TypeError
  end.

(** [n > k] and [n < k] against an [int] constant *)
Definition gt_int (n : number) (k : Z) : bool :=
  negb (Qle_bool (number_value n) (inject_Z k)).

Definition lt_int (n : number) (k : Z) : bool :=
  negb (Qle_bool (inject_Z k) (number_value n)).

(** [l.append(x)] *)
Definition snoc {A : Type} (l : list A) (x : A) : list A := (l ++ [x])%list.

(** ** app/weather_service.py *)

(** One entry of [adverse_conditions_found].  A keyword hit carries [main]
    and no [measurement]; a threshold hit carries [measurement] and no
    [main]. *)
Record condition : Type := mkCondition {
  c_type : string;
  c_description : string;
  c_main : option string;
  c_measurement : option number
}.

(** The keys [weather_description], [temperature], [wind_speed] and
    [mock_data], which only the full result has. *)
Record observation_echo : Type := mkEcho {
  weather_description : string;
  temperature : json;
  wind_speed : json;
  mock_data : json
}.

Record analysis : Type := mkAnalysis {
  has_adverse_weather : bool;
  conditions : list condition;
  severity : string;
  justification : string;
  echo : option observation_echo
}.

(** [self.adverse_conditions], in insertion order *)
Definition adverse_conditions : list (string * list string) :=
  [ ("thunderstorm", ["thunderstorm"; "storm"]);
    ("heavy_rain", ["heavy rain"; "extreme rain"; "heavy intensity rain"]);
    ("snow", ["snow"; "blizzard"; "heavy snow"]);
    ("fog", ["fog"; "mist"]);
    ("extreme_weather", ["tornado"; "hurricane"; "typhoon"]) ].

Definition severity_keywords : list string :=
  ["extreme"; "heavy"; "severe"; "thunderstorm"; "snow"; "blizzard"].

(** The description of one condition in the justification. *)
Definition condition_description (c : condition) : string :=
  match c_measurement c with
  | Some _ => c_description c
  | None => title (replace "_" " " (c_type c))
  end.

Definition _generate_justification (adverse_conditions : list condition)
    (weather_desc : string) : string :=
  match adverse_conditions with
  | [] => "No adverse weather conditions detected that would impact delivery."
  | _ :: _ =>
      let condition_descriptions := map condition_description adverse_conditions in
      if (List.length condition_descriptions =? 1)%nat
      then "Delivery delay justified due to adverse weather: "
             ++ nth 0%nat condition_descriptions "" ++ ". Weather conditions: "
             ++ weather_desc ++ "."
      else
        let conditions_str :=
          String.concat ", " (removelast condition_descriptions)
            ++ " and " ++ last condition_descriptions "" in
        "Delivery delay justified due to multiple adverse weather conditions: "
          ++ conditions_str ++ ". Weather conditions: " ++ weather_desc ++ "."
  end.

(** The two nested loops over [self.adverse_conditions]. *)
Definition keyword_hits (weather_desc weather_main : string) : list condition :=
  flat_map
    (fun entry : string * list string =>
       let (condition_type, keywords) := entry in
       flat_map
         (fun keyword =>
            if contains keyword weather_desc || contains keyword weather_main
            then [mkCondition condition_type weather_desc (Some weather_main) None]
            else [])
         keywords)
    adverse_conditions.

(** [p.get('1h', 0) or p.get('3h', 0)] *)
Definition precipitation_amount (p : json) : outcome json :=
  one_hour <- py_get p "1h" (JInt 0) ;;
  if truthy one_hour then Ok one_hour else py_get p "3h" (JInt 0).

(** The early return of [analyze_adverse_weather]. *)
Definition no_weather_data : analysis :=
  mkAnalysis false [] "none" "No weather data available" None.

Definition analyze_adverse_weather `{Collaborators} (weather_data : json)
    : outcome analysis :=
  has_data <- (if truthy weather_data then py_in "data" weather_data else Ok false) ;;
  if negb has_data then Ok no_weather_data
  else
    data <- py_getitem weather_data "data" ;;
    weather_info <- py_getitem0 data ;;
    (* weather description and main category *)
    w <- py_get weather_info "weather" (JList [JObj []]) ;;
    w0 <- py_getitem0 w ;;
    d <- py_get w0 "description" (JStr "") ;;
    weather_desc <- py_lower d ;;
    m <- py_get w0 "main" (JStr "") ;;
    weather_main <- py_lower m ;;
    let found := keyword_hits weather_desc weather_main in
    (* precipitation *)
    rain <- py_get weather_info "rain" (JObj []) ;;
    snow <- py_get weather_info "snow" (JObj []) ;;
    found <-
      (if truthy rain then
         v <- precipitation_amount rain ;;
         rain_1h <- py_number v ;;
         Ok (if gt_int rain_1h 10
             then snoc found (mkCondition "heavy_rain"
                              ("Heavy rainfall: " ++ number_str rain_1h ++ "mm")
                              None (Some rain_1h))
             else found)
       else Ok found) ;;
    found <-
      (if truthy snow then
         v <- precipitation_amount snow ;;
         snow_1h <- py_number v ;;
         Ok (if gt_int snow_1h 0
             then snoc found (mkCondition "snow"
                              ("Snowfall: " ++ number_str snow_1h ++ "mm")
                              None (Some snow_1h))
             else found)
       else Ok found) ;;
    (* wind *)
    wind <- py_get weather_info "wind_speed" (JInt 0) ;;
    wind_n <- py_number wind ;;
    let found :=
      if gt_int wind_n 15
      then snoc found (mkCondition "strong_wind"
                       ("Strong winds: " ++ number_str wind_n ++ " m/s")
                       None (Some wind_n))
      else found in
    (* severity *)
    let severity :=
      if (0 <? List.length found)%nat then
        if existsb (fun keyword => contains keyword weather_desc) severity_keywords
        then "high"
        else if (1 <? List.length found)%nat then "medium" else "low"
      else "none" in
    temp <- py_get weather_info "temp" JNull ;;
    mock <- py_get weather_data "mock" (JBool false) ;;
    Ok (mkAnalysis (0 <? List.length found)%nat found severity
          (_generate_justification found weather_desc)
          (Some (mkEcho weather_desc temp wind mock))).

(** [_mock_weather_data] *)
Definition _mock_weather_data : json :=
  JObj [ ("data", JList [ JObj [ ("dt", JInt 1691462400);
                                 ("temp", JFloat 25.0);
                                 ("weather", JList [ JObj [ ("main", JStr "Clear");
                                                            ("description", JStr "clear sky") ] ]);
                                 ("wind_speed", JFloat 3.5);
                                 ("rain", JNull);
                                 ("snow", JNull) ] ]);
         ("mock", JBool true) ].

(** ** app/models.py and app/schemas.py *)

(** A row of [suppliers].  The columns [contract_terms], [last_audit] and
    the time stamps are never read by the operations below. *)
Record SupplierModel : Type := mkSupplier {
  s_id : Z;
  s_name : string;
  s_country : string;
  s_compliance_score : json
}.

(** A row of [compliance_records]; [status] is a free-form [String] column. *)
Record ComplianceRecordModel : Type := mkRecord {
  r_id : Z;
  r_supplier_id : Z;
  r_metric : string;
  r_date_recorded : date;
  r_result : Q;
  r_expected_value : option Q;
  r_status : string;
  r_ai_analysis : option json;
  r_weather_data : option analysis;
  r_weather_justification : option string
}.

(** The store: both tables, the next primary key of [compliance_records]
    and the number of transactions committed so far. *)
Record database : Type := mkDatabase {
  suppliers : list SupplierModel;
  compliance_records : list ComplianceRecordModel;
  next_record_id : Z;
  commits : nat
}.

Record ComplianceRecordBase : Type := mkRecordBase {
  metric : string;
  date_recorded : date;
  result : Q;
  expected_value : option Q;
  status : string
}.

Record ComplianceRecordCreate : Type := mkRecordCreate {
  create_base : ComplianceRecordBase;
  create_supplier_id : Z
}.

Record ComplianceCheckRequest : Type := mkCheckRequest {
  check_supplier_id : Z;
  compliance_data : list ComplianceRecordBase
}.

Record ComplianceCheckResponse : Type := mkCheckResponse {
  resp_supplier_id : Z;
  resp_compliance_records : list ComplianceRecordModel;
  resp_ai_analysis : json;
  updated_compliance_score : json
}.

Record WeatherImpactRequest : Type := mkWeatherRequest {
  supplier_id : Z;
  compliance_record_id : option Z;
  lat : option Q;
  lon : option Q;
  delivery_date : string
}.

Record WeatherImpactResponse : Type := mkWeatherResponse {
  w_supplier_id : Z;
  w_compliance_record_id : option Z;
  weather_analysis : analysis;
  w_justification : string;
  status_updated : bool;
  updated_records : list ComplianceRecordModel
}.

Definition date_eqb (a b : date) : bool :=
  (year a =? year b) && (month a =? month b) && (day a =? day b).

(** [db.query(SupplierModel).filter(SupplierModel.id == i).first()] *)
Definition query_supplier (db : database) (i : Z) : option SupplierModel :=
  find (fun s => s_id s =? i) (suppliers db).

(** ** app/routers/compliance.py *)

(** [x in l] for a list of strings *)
Definition in_list (x : string) (l : list string) : bool :=
  existsb (String.eqb x) l.

(** The status assigned to one item of the batch (lines 47 to 58). *)
Definition status_value (record_data : ComplianceRecordBase) : string :=
  match expected_value record_data with
  | Some expected =>
      if in_list (lower (metric record_data)) ["delivery_time"; "lead_time"] then
        if Qle_bool (result record_data) expected
        then "compliant" else "non-compliant"
      else if in_list (lower (metric record_data)) ["quality_score"; "quality_rating"] then
        if Qle_bool expected (result record_data)
        then "compliant" else "non-compliant"
      else status record_data
  | None => status record_data
  end.

(** The loop that builds [created_records]; the rows receive consecutive
    primary keys starting at [next]. *)
Fixpoint stage_records (sid : Z) (next : Z) (batch : list ComplianceRecordBase)
    : list ComplianceRecordModel :=
  match batch with
  | [] => []
  | record_data :: rest =>
      mkRecord next sid (metric record_data) (date_recorded record_data)
        (result record_data) (expected_value record_data)
        (status_value record_data) None None None
      :: stage_records sid (next + 1) rest
  end.

Definition set_ai_analysis (ai : json) (r : ComplianceRecordModel)
    : ComplianceRecordModel :=
  mkRecord (r_id r) (r_supplier_id r) (r_metric r) (r_date_recorded r)
    (r_result r) (r_expected_value r) (r_status r) (Some ai)
    (r_weather_data r) (r_weather_justification r).

(** [min(100, v)] and [max(0, v)] *)
Definition py_min_100 (v : json) : outcome json :=
  n <- py_number v ;;
  Ok (if lt_int n 100 then v else JInt 100).

Definition py_max_0 (v : json) : outcome json :=
  n <- py_number v ;;
  Ok (if gt_int n 0 then v else JInt 0).

(** The column [compliance_score = Column(Integer, default=100)].  The
    store is PostgreSQL, reached through psycopg2, the driver that
    SQLAlchemy selects for a [postgresql://] address: an [int] travels as an
    integer literal, a [float] as a [numeric] literal, [True] and [False]
    as boolean literals. *)

(** The assignment of a [numeric] to an [integer] column: the nearest
    integer, a tie away from zero. *)
Definition round_half_away (q : Q) : Z :=
  if Qle_bool 0 q then Qfloor (q + (1 # 2)) else - Qfloor (- q + (1 # 2)).

Definition in_integer_range (z : Z) : bool :=
  (-2147483648 <=? z) && (z <=? 2147483647).

(** [UPDATE suppliers SET compliance_score = n]: the column refuses a
    boolean expression and a number beyond its range. *)
Definition integer_column (n : number) : outcome Z :=
  match n with
  | NBool _ => Raise DBAPIError
  | NInt z => if in_integer_range z then Ok z else Raise DBAPIError
  | NFloat q =>
      let z := round_half_away q in
      if in_integer_range z then Ok z else Raise DBAPIError
  end.

(** [db.commit()] and [db.refresh(supplier)], for the attribute
    [compliance_score]: the unit of work leaves the column out of the
    [UPDATE] when the value assigned equals ([==]) the value loaded from
    the row, which is an [int] or [None]; the refresh reads the column. *)
Definition commit_compliance_score (loaded score : json) : outcome json :=
  n <- py_number score ;;
  let unchanged :=
    match loaded with
    | JInt z => Qeq_bool (number_value n) (inject_Z z)
    | _ => false
    end in
  if unchanged then Ok loaded
  else
    z <- integer_column n ;;
    Ok (JInt z).

Definition set_compliance_score (score : json) (s : SupplierModel) : SupplierModel :=
  mkSupplier (s_id s) (s_name s) (s_country s) score.

(** Replace the first element that satisfies [p]. *)
Fixpoint update_first {A : Type} (p : A -> bool) (f : A -> A) (l : list A) : list A :=
  match l with
  | [] => []
  | x :: rest => if p x then f x :: rest else x :: update_first p f rest
  end.

(** [check_compliance]; [ai_analysis] is the document that
    [gemini_service.analyze_compliance_data] returns for this request.  An
    exception inside the [try] block rolls the session back and becomes a
    500 response.  The response carries the score read back from the row,
    under [updated_compliance_score: int]. *)
Definition check_compliance (db : database) (compliance_request : ComplianceCheckRequest)
    (ai_analysis : json) : outcome (database * ComplianceCheckResponse) :=
  let sid := check_supplier_id compliance_request in
  match query_supplier db sid with
  | None => Raise (HTTPException 404)
  | Some supplier =>
      let staged :=
        stage_records sid (next_record_id db) (compliance_data compliance_request) in
      let created_records := map (set_ai_analysis ai_analysis) staged in
      let attempt :=
        suggested_score <-
          py_get ai_analysis "compliance_score_suggestion" (s_compliance_score supplier) ;;
        capped <- py_min_100 suggested_score ;;
        score <- py_max_0 capped ;;
        stored <- commit_compliance_score (s_compliance_score supplier) score ;;
        Ok (mkDatabase
              (update_first (fun s => s_id s =? sid) (set_compliance_score stored)
                 (suppliers db))
              (compliance_records db ++ created_records)%list
              (next_record_id db + Z.of_nat (List.length created_records))
              (S (commits db)),
            mkCheckResponse sid created_records ai_analysis stored) in
      match attempt with
      | Ok r => Ok r
      | Raise _ => Raise (HTTPException 500)
      end
  end.

(** [create_compliance_record] *)
Definition create_compliance_record (db : database) (supplier_id : Z)
    (record : ComplianceRecordCreate) : outcome (database * ComplianceRecordModel) :=
  match query_supplier db supplier_id with
  | None => Raise (HTTPException 404)
  | Some _ =>
      let b := create_base record in
      let db_record :=
        mkRecord (next_record_id db) supplier_id (metric b) (date_recorded b)
          (result b) (expected_value b) (status b) None None None in
      Ok (mkDatabase (suppliers db) (compliance_records db ++ [db_record])%list
            (next_record_id db + 1) (S (commits db)),
          db_record)
  end.

(** ** app/routers/suppliers.py *)

(** The three assignments that excuse a record. *)
Definition excuse (weather_analysis : analysis) (r : ComplianceRecordModel)
    : ComplianceRecordModel :=
  mkRecord (r_id r) (r_supplier_id r) (r_metric r) (r_date_recorded r)
    (r_result r) (r_expected_value r) "excused-weather" (r_ai_analysis r)
    (Some weather_analysis) (Some (justification weather_analysis)).

(** [if request.compliance_record_id:] *)
Definition record_id_given (i : option Z) : option Z :=
  match i with
  | Some rid => if rid =? 0 then None else Some rid
  | None => None
  end.

(** The records to update (lines 186 to 220): the rows of the table after
    the assignments, and [updated_records]. *)
Definition reclassify (records : list ComplianceRecordModel) (sid : Z)
    (compliance_record_id : option Z) (delivery : date) (weather_analysis : analysis)
    : outcome (list ComplianceRecordModel * list ComplianceRecordModel) :=
  match record_id_given compliance_record_id with
  | Some rid =>
      let mine r := (r_id r =? rid) && (r_supplier_id r =? sid) in
      match find mine records with
      | None => Raise (HTTPException 404)
      | Some record =>
          if has_adverse_weather weather_analysis
             && (r_status record =? "non-compliant")%string
          then Ok (update_first mine (excuse weather_analysis) records,
                   [excuse weather_analysis record])
          else Ok (records, [])
      end
  | None =>
      let selected r :=
        (r_supplier_id r =? sid)
        && date_eqb (r_date_recorded r) delivery
        && (r_status r =? "non-compliant")%string in
      if has_adverse_weather weather_analysis
      then Ok (map (fun r => if selected r then excuse weather_analysis r else r) records,
               map (excuse weather_analysis) (filter selected records))
      else Ok (records, [])
  end.

Definition check_weather_impact `{Collaborators} (db : database)
    (request : WeatherImpactRequest) : outcome (database * WeatherImpactResponse) :=
  let sid := supplier_id request in
  match query_supplier db sid with
  | None => Raise (HTTPException 404)
  | Some supplier =>
      (* coordinates *)
      coordinates <-
        match lat request, lon request with
        | Some la, Some lo => Ok (la, lo)
        | _, _ =>
            match get_coordinates_from_country (s_country supplier) with
            | Some c => Ok c
            | None => Raise (HTTPException 400)
            end
        end ;;
      (* delivery date *)
      delivery <-
        match strptime_date (delivery_date request) with
        | Some d => Ok d
        | None => Raise (HTTPException 400)
        end ;;
      let weather_data :=
        get_historical_weather (fst coordinates) (snd coordinates)
          (delivery_date request) in
      if negb (truthy weather_data) then Raise (HTTPException 503)
      else
        weather_analysis <- analyze_adverse_weather weather_data ;;
        selection <-
          reclassify (compliance_records db) sid (compliance_record_id request)
            delivery weather_analysis ;;
        let updated := snd selection in
        (* one commit, and only when a record was updated *)
        Ok (mkDatabase (suppliers db) (fst selection) (next_record_id db)
              (match updated with [] => commits db | _ :: _ => S (commits db) end),
            mkWeatherResponse sid (compliance_record_id request) weather_analysis
              (justification weather_analysis)
              (0 <? List.length updated)%nat updated)
  end.

(** ** The operations that write the store *)

Inductive event : Type :=
| Ingest (request : ComplianceCheckRequest) (ai_analysis : json)
| Create (supplier_id : Z) (record : ComplianceRecordCreate)
| Adjudicate (request : WeatherImpactRequest).

Definition run `{Collaborators} (db : database) (e : event) : outcome database :=
  match e with
  | Ingest request ai_analysis =>
      r <- check_compliance db request ai_analysis ;; Ok (fst r)
  | Create supplier_id record =>
      r <- create_compliance_record db supplier_id record ;; Ok (fst r)
  | Adjudicate request =>
      r <- check_weather_impact db request ;; Ok (fst r)
  end.


(** ** Sample data *)

Definition sample_date : date := mkDate 2024 8 8.

(** A storm over the sample location on the sample date. *)
Definition sample_storm : json :=
  JObj [ ("data", JList [ JObj [ ("temp", JInt 18);
                                 ("weather", JList [ JObj [ ("main", JStr "Rain");
                                                            ("description", JStr "light rain") ] ]);
                                 ("wind_speed", JInt 4);
                                 ("rain", JObj [ ("1h", JInt 15) ]) ] ]) ].

(** Collaborators with a fixed observation; the float printer is exact on
    non-negative values with one decimal digit. *)
Definition sample_collaborators (observation : json) : Collaborators :=
  {| float_repr := fun q =>
       let tenths := (Qnum (q * 10) / Z.pos (Qden (q * 10)))%Z in
       NilZero.string_of_int (Z.to_int (tenths / 10)) ++ "."
         ++ NilZero.string_of_int (Z.to_int (tenths mod 10));
     get_coordinates_from_country := fun _ => None;
     get_historical_weather := fun _ _ _ => observation;
     strptime_date := fun s => if (s =? "2024-08-08")%string then Some sample_date else None |}.

Definition sample_supplier : SupplierModel :=
  mkSupplier 1 "Acme" "France" (JInt 85).

Definition sample_record (i : Z) (s : string) : ComplianceRecordModel :=
  mkRecord i 1 "delivery_time" sample_date 6 (Some 5%Q) s None None None.

Definition sample_db : database :=
  mkDatabase [sample_supplier]
    [sample_record 1 "non-compliant"; sample_record 2 "compliant"] 3 0.

Definition sample_batch : list ComplianceRecordBase :=
  [ mkRecordBase "Delivery_Time" sample_date 6 (Some 5%Q) "compliant";
    mkRecordBase "quality_score" sample_date 98.5 (Some 99%Q) "compliant";
    mkRecordBase "defect_rate" sample_date 2 (Some 1%Q) "excused-weather";
    mkRecordBase "lead_time" sample_date 3 None "compliant" ].

Definition sample_opinion (suggestion : json) : json :=
  JObj [ ("risk_assessment", JStr "medium");
         ("compliance_score_suggestion", suggestion) ].

Definition sample_weather_request (rid : option Z) : WeatherImpactRequest :=
  mkWeatherRequest 1 rid (Some 40.7128%Q) (Some (-74.0060)%Q) "2024-08-08".

(** ** app/weather_service.py: the service behind the weather collaborators *)

Module WeatherService.

(** [self] and what it reaches: the API key of the environment, the
    geocoder ([None] for an unknown place), [requests.get] on the
    time-machine URL (the status code and the decoded body of the response,
    each of which may raise), and the two run-time functions. *)
Record t : Type := mk {
  api_key : option string;
  geocode : string -> outcome (option (Q * Q));
  requests_get : Q -> Q -> date -> string -> outcome (Z * outcome json);
  strptime : string -> option date;
  repr : Q -> string
}.

Definition get_coordinates_from_country (self : t) (country : string)
    : option (Q * Q) :=
  match geocode self country with
  | Ok (Some location) => Some location
  | Ok None => None
  | Raise _ => None
  end.

Definition get_historical_weather (self : t) (lat lon : Q) (date : string) : json :=
  match api_key self with
  | None => _mock_weather_data
  | Some key =>
      if (key =? "")%string then _mock_weather_data
      else
        (* try: *)
        match strptime self date with
        | None => _mock_weather_data
        | Some dt =>
            match requests_get self lat lon dt key with
            | Raise _ => _mock_weather_data
            | Ok (status_code, body) =>
                if status_code =? 200
                then match body with
                     | Ok document => document
                     | Raise _ => _mock_weather_data
                     end
                else _mock_weather_data
            end
        end
  end.

(** The global instance [weather_service], as the routers use it. *)
Definition collaborators (self : t) : Collaborators :=
  Build_Collaborators (repr self) (get_coordinates_from_country self)
    (get_historical_weather self) (strptime self).

End WeatherService.

(** ** app/ai_service.py *)

Module GeminiService.

(** What the [try] block obtains from the model for the prompt that
    embeds the supplier name and the records: the text of the response, or
    an exception with its message. *)
Inductive reply : Type :=
| Text (text : string)
| Failed (message : string).

(** [self]: the model, asked about a supplier and its records, and
    [json.loads] ([None] for a [JSONDecodeError]). *)
Record t : Type := mk {
  generate_content : string -> list json -> reply;
  json_loads : string -> option json
}.




End GeminiService.

(** ** app/routers/insights.py *)

(** The float arithmetic of the summary, which the run time supplies:
    [sum(xs)], [a / n], [a / b * 100] and [round(x, 2)]. *)
Class Arithmetic : Type := {
  py_sum : list number -> number;
  true_divide : number -> nat -> number;
  percentage : nat -> nat -> number;
  round2 : number -> number
}.

Definition number_json (n : number) : json :=
  match n with
  | NBool b => JBool b
  | NInt z => JInt z
  | NFloat q => JFloat q
  end.

Definition nat_json (n : nat) : json := JInt (Z.of_nat n).

Definition nat_str (n : nat) : string := NilZero.string_of_int (Z.to_int (Z.of_nat n)).

(** [a <= b] on dates *)
Definition date_leb (a b : date) : bool :=
  (year a <? year b)
  || ((year a =? year b)
      && ((month a <? month b) || ((month a =? month b) && (day a <=? day b)))).

(** [v is None] *)
Definition is_none (v : json) : bool :=
  match v with
  | JNull => true
  | _ => false
  end.

(** A comprehension or a fold whose step may raise. *)
Fixpoint each {A B : Type} (f : A -> outcome B) (l : list A) : outcome (list B) :=
  match l with
  | [] => Ok []
  | x :: rest => y <- f x ;; ys <- each f rest ;; Ok (y :: ys)
  end.

(** The three characters between "(" and "80 score)" in the source text of
    the summary, in UTF-8. *)
Definition at_least_sign : string :=
  String "195" (String "162" (String "226" (String "128" (String "176"
    (String "194" (String "165" EmptyString)))))).

(** [get_compliance_summary]; [thirty_days_ago] is
    [date.today() - timedelta(days=30)].  Every exception inside the [try]
    block becomes a 500 response. *)
Definition get_compliance_summary `{Arithmetic} (db : database) (thirty_days_ago : date)
    : outcome json :=
  let attempt :=
    let suppliers := suppliers db in
    let total_suppliers := List.length suppliers in
    if (total_suppliers =? 0)%nat then
      Ok (JObj [ ("total_suppliers", JInt 0);
                 ("average_compliance_score", JInt 0);
                 ("high_risk_suppliers", JInt 0);
                 ("compliant_suppliers", JInt 0);
                 ("summary", JStr "No suppliers found") ])
    else
      (* sum(...) raises on a score that is not a number *)
      compliance_scores <-
        each py_number
          (filter (fun v => negb (is_none v)) (map s_compliance_score suppliers)) ;;
      let average_score :=
        match compliance_scores with
        | [] => NInt 0
        | _ :: _ => true_divide (py_sum compliance_scores) (List.length compliance_scores)
        end in
      (* s.compliance_score < 60 raises on None *)
      scores <- each py_number (map s_compliance_score suppliers) ;;
      let high_risk_suppliers := List.length (filter (fun n => lt_int n 60) scores) in
      let compliant_suppliers :=
        List.length (filter (fun n => negb (lt_int n 80)) scores) in
      let recent_records :=
        filter (fun r => date_leb thirty_days_ago (r_date_recorded r))
          (compliance_records db) in
      let recent_compliant :=
        List.length (filter (fun r => (r_status r =? "compliant")%string) recent_records) in
      let recent_total := List.length recent_records in
      let recent_compliance_rate :=
        if (0 <? recent_total)%nat then percentage recent_compliant recent_total
        else NInt 0 in
      Ok (JObj [ ("total_suppliers", nat_json total_suppliers);
                 ("average_compliance_score", number_json (round2 average_score));
                 ("high_risk_suppliers", nat_json high_risk_suppliers);
                 ("compliant_suppliers", nat_json compliant_suppliers);
                 ("recent_compliance_rate", number_json (round2 recent_compliance_rate));
                 ("recent_records_count", nat_json recent_total);
                 ("summary",
                  JStr (nat_str compliant_suppliers ++ " out of "
                          ++ nat_str total_suppliers ++ " suppliers are compliant ("
                          ++ at_least_sign ++ "80 score)")) ]) in
  match attempt with
  | Ok summary => Ok summary
  | Raise _ => Raise (HTTPException 500)
  end.

(** A sample arithmetic on exact rationals, rounding down to hundredths. *)
Definition sample_arithmetic : Arithmetic :=
  {| py_sum := fun xs => NFloat (fold_right (fun n acc => (number_value n + acc)%Q) 0%Q xs);
     true_divide := fun a n => NFloat (number_value a / inject_Z (Z.of_nat n))%Q;
     percentage := fun a b =>
       NFloat (inject_Z (Z.of_nat a) / inject_Z (Z.of_nat b) * 100)%Q;
     round2 := fun x =>
       NFloat ((Qnum (number_value x * 100) / Z.pos (Qden (number_value x * 100)))%Z
               # 100) |}.

(** ** Histories *)

(** The store after a sequence of events, each of which completes. *)
Fixpoint run_all `{Collaborators} (db : database) (events : list event)
    : outcome database :=
  match events with
  | [] => Ok db
  | e :: rest => db' <- run db e ;; run_all db' rest
  end.

(** ** Vocabulary of the statements *)

(** The value of key [k] in a dict, [default] when the key is absent. *)
Definition field (kvs : list (string * json)) (k : string) (default : json) : json :=
  match lookup k kvs with
  | Some v => v
  | None => default
  end.

(** The amount of a precipitation map in the words of the specification:
    the 1h value when it is nonzero, otherwise the 3h value, an absent value
    counting as 0. *)
Definition chosen_amount (p : list (string * json)) : json :=
  if truthy (field p "1h" (JInt 0)) then field p "1h" (JInt 0)
  else field p "3h" (JInt 0).

(** The finding of a threshold, when the amount exceeds it. *)
Definition threshold_part `{Collaborators} (category label unit : string) (k : Z)
    (n : number) : list condition :=
  if gt_int n k
  then [mkCondition category (label ++ number_str n ++ unit) None (Some n)]
  else [].

(** A finding of the given category that carries a measurement. *)
Definition is_threshold_hit (category : string) (c : condition) : bool :=
  (c_type c =? category)%string
  && match c_measurement c with Some _ => true | None => false end.

(** The severity in the words of the specification. *)
Definition severity_rule (findings : list condition) (description : string) : string :=
  match findings with
  | [] => "none"
  | _ :: others =>
      if existsb (fun keyword => contains keyword description)
           ["extreme"; "heavy"; "severe"; "thunderstorm"; "snow"; "blizzard"]
      then "high"
      else match others with
           | _ :: _ => "medium"
           | [] => "low"
           end
  end.


(** * Properties *)

(** ** The error monad *)

Lemma bind_Ok {A B : Type} (m : outcome A) (k : A -> outcome B) (b : B) :
  bind m k = Ok b -> exists a, m = Ok a /\ k a = Ok b.
Proof.
  destruct m as [a | e]; simpl; intros Hk.
  - exists a; split; [reflexivity | exact Hk].
  - discriminate Hk.
Qed.

Tactic Notation "bind_inv" hyp(H) "as" ident(a) ident(Hm) :=
  apply bind_Ok in H; destruct H as [a [Hm H]].

Lemma gt_int_spec (n : number) (k : Z) :
  gt_int n k = true <-> (inject_Z k < number_value n)%Q.
Proof.
  unfold gt_int. rewrite negb_true_iff.
  destruct (Qle_bool (number_value n) (inject_Z k)) eqn:E; split; intros H.
  - discriminate H.
  - apply Qle_bool_iff in E. lra.
  - apply Qnot_le_lt. intros L. apply Qle_bool_iff in L. congruence.
  - reflexivity.
Qed.

Lemma lt_int_spec (n : number) (k : Z) :
  lt_int n k = true <-> (number_value n < inject_Z k)%Q.
Proof.
  unfold lt_int. rewrite negb_true_iff.
  destruct (Qle_bool (inject_Z k) (number_value n)) eqn:E; split; intros H.
  - discriminate H.
  - apply Qle_bool_iff in E. lra.
  - apply Qnot_le_lt. intros L. apply Qle_bool_iff in L. congruence.
  - reflexivity.
Qed.

Ltac q_arith := unfold inject_Z in *; simpl in *; lra.

(** ** Ingestion *)

Lemma find_update_first {A : Type} (p : A -> bool) (f : A -> A) (l : list A) (x : A) :
  find p l = Some x -> p (f x) = true -> find p (update_first p f l) = Some (f x).
Proof.
  induction l as [| y l IH]; simpl; intros Hf Hp.
  - discriminate Hf.
  - destruct (p y) eqn:Ey.
    + inversion Hf; subst. simpl. rewrite Hp. reflexivity.
    + simpl. rewrite Ey. apply IH; assumption.
Qed.

(** The score column. *)
Lemma floor_half_near (q : Q) :
  (inject_Z (Qfloor (q + (1 # 2))) - (1 # 2) <= q
   /\ q < inject_Z (Qfloor (q + (1 # 2))) + (1 # 2))%Q.
Proof.
  pose proof (Qfloor_le (q + (1 # 2))) as Hl.
  pose proof (Qlt_floor (q + (1 # 2))) as Hu.
  rewrite inject_Z_plus in Hu. change (inject_Z 1) with 1%Q in Hu.
  split; lra.
Qed.

Lemma round_half_away_near (q : Q) :
  (inject_Z (round_half_away q) - (1 # 2) <= q
   /\ q <= inject_Z (round_half_away q) + (1 # 2))%Q.
Proof.
  unfold round_half_away. destruct (Qle_bool 0 q).
  - destruct (floor_half_near q). split; lra.
  - destruct (floor_half_near (- q)) as [Hl Hu].
    rewrite inject_Z_opp. split; lra.
Qed.

Lemma round_half_away_bounds (q : Q) (a b : Z) :
  (inject_Z a <= q <= inject_Z b)%Q -> a <= round_half_away q <= b.
Proof.
  intros [Ha Hb].
  destruct (round_half_away_near q) as [Hl Hu].
  assert (H1 : (inject_Z (round_half_away q) < inject_Z (b + 1))%Q).
  { rewrite inject_Z_plus. change (inject_Z 1) with 1%Q. lra. }
  assert (H2 : (inject_Z a < inject_Z (round_half_away q + 1))%Q).
  { rewrite inject_Z_plus. change (inject_Z 1) with 1%Q. lra. }
  rewrite <- Zlt_Qlt in H1, H2. lia.
Qed.

Lemma round_half_away_Z (q : Q) (z : Z) :
  (q == inject_Z z)%Q -> round_half_away q = z.
Proof.
  intros Hq.
  assert (H : z <= round_half_away q <= z).
  { apply round_half_away_bounds. lra. }
  lia.
Qed.

(** What a committed score is: the integer nearest to the value assigned;
    a boolean is never written. *)
Lemma commit_compliance_score_Ok (loaded score stored : json) :
  commit_compliance_score loaded score = Ok stored ->
  exists n,
    py_number score = Ok n
    /\ stored = JInt (round_half_away (number_value n))
    /\ (forall b, n = NBool b -> loaded = stored).
Proof.
  unfold commit_compliance_score. intros H. bind_inv H as n Hn.
  exists n. split; [exact Hn |].
  assert (Hwrite : (z <- integer_column n ;; Ok (JInt z)) = Ok stored ->
                   stored = JInt (round_half_away (number_value n))
                   /\ (forall b, n = NBool b -> loaded = stored)).
  { intros Hw. bind_inv Hw as z Hz. inversion Hw; subst stored; clear Hw.
    destruct n as [b | z' | q]; simpl in Hz.
    - discriminate Hz.
    - destruct (in_integer_range z'); [| discriminate Hz].
      inversion Hz; subst z'. split; [| intros b Hb; discriminate Hb].
      simpl. rewrite (round_half_away_Z (inject_Z z) z); [reflexivity |].
      reflexivity.
    - destruct (in_integer_range (round_half_away q)); [| discriminate Hz].
      inversion Hz; subst z. split; [reflexivity | intros b Hb; discriminate Hb]. }
  destruct loaded as [| b | z | q | t | l | kvs]; try (apply Hwrite; exact H).
  destruct (Qeq_bool (number_value n) (inject_Z z)) eqn:E; [| apply Hwrite; exact H].
  inversion H; subst stored; clear H.
  apply Qeq_bool_iff in E.
  rewrite (round_half_away_Z _ z E). split; [reflexivity | intros; reflexivity].
Qed.



(** What a successful ingestion did. *)
Lemma check_compliance_Ok (db db' : database) (request : ComplianceCheckRequest)
    (ai : json) (resp : ComplianceCheckResponse) :
  check_compliance db request ai = Ok (db', resp) ->
  exists supplier kvs n1 n2 stored,
    query_supplier db (check_supplier_id request) = Some supplier
    /\ ai = JObj kvs
    /\ let suggested := match lookup "compliance_score_suggestion" kvs with
                        | Some v => v
                        | None => s_compliance_score supplier
                        end in
       let capped := if lt_int n1 100 then suggested else JInt 100 in
       let score := if gt_int n2 0 then capped else JInt 0 in
       let created :=
         map (set_ai_analysis ai)
           (stage_records (check_supplier_id request) (next_record_id db)
              (compliance_data request)) in
       py_number suggested = Ok n1
       /\ py_number capped = Ok n2
       /\ commit_compliance_score (s_compliance_score supplier) score = Ok stored
       /\ db' = mkDatabase
                  (update_first (fun s => s_id s =? check_supplier_id request)
                     (set_compliance_score stored) (suppliers db))
                  (compliance_records db ++ created)%list
                  (next_record_id db + Z.of_nat (List.length created))
                  (S (commits db))
       /\ resp = mkCheckResponse (check_supplier_id request) created ai stored.
Proof.
  unfold check_compliance. intros H.
  destruct (query_supplier db (check_supplier_id request)) as [supplier |] eqn:Es;
    [| discriminate H].
  match type of H with
  | match ?attempt with _ => _ end = _ => destruct attempt as [r | e] eqn:Ea
  end; [| discriminate H].
  inversion H; subst r; clear H.
  bind_inv Ea as suggested Hget. bind_inv Ea as capped Hmin. bind_inv Ea as score Hmax.
  bind_inv Ea as stored Hcommit.
  destruct ai; simpl in Hget; try discriminate Hget.
  inversion Hget; subst suggested; clear Hget.
  unfold py_min_100 in Hmin. bind_inv Hmin as n1 Hn1.
  inversion Hmin; subst capped; clear Hmin.
  unfold py_max_0 in Hmax. bind_inv Hmax as n2 Hn2.
  inversion Hmax; subst score; clear Hmax.
  inversion Ea; subst; clear Ea.
  exists supplier, kvs, n1, n2, stored. repeat split; assumption.
Qed.

(** The score a successful ingestion assigns before the commit: the
    suggestion clamped, a number between 0 and 100. *)
Lemma clamped_score (suggested : json) (n1 n2 : number) :
  py_number suggested = Ok n1 ->
  py_number (if lt_int n1 100 then suggested else JInt 100) = Ok n2 ->
  exists n,
    py_number (if gt_int n2 0
               then (if lt_int n1 100 then suggested else JInt 100)
               else JInt 0) = Ok n
    /\ (0 <= number_value n <= 100)%Q
    /\ ((0 <= number_value n1 <= 100)%Q -> (number_value n == number_value n1)%Q)
    /\ ((number_value n1 < 0)%Q -> n = NInt 0)
    /\ ((100 < number_value n1)%Q -> n = NInt 100)
    /\ (forall b, n = NBool b -> n1 = NBool true /\ b = true)
    /\ (forall z, n1 = NInt z -> exists z', n = NInt z').
Proof.
  intros Hn1 Hn2.
  destruct (lt_int n1 100) eqn:Elt.
  - rewrite Hn1 in Hn2. inversion Hn2; subst n2; clear Hn2.
    apply lt_int_spec in Elt. unfold inject_Z in Elt.
    destruct (gt_int n1 0) eqn:Egt.
    + apply gt_int_spec in Egt. unfold inject_Z in Egt.
      exists n1. split; [exact Hn1 |].
      repeat split; intros; try q_arith.
      * subst n1. destruct b; [reflexivity | q_arith].
      * subst n1. destruct b; [reflexivity | q_arith].
      * eexists; eassumption.
    + assert (Hle : (number_value n1 <= 0)%Q).
      { apply Qnot_lt_le. intros L. apply (proj2 (gt_int_spec n1 0)) in L. congruence. }
      exists (NInt 0). split; [reflexivity |].
      repeat split; simpl; intros; try discriminate; try reflexivity; try q_arith.
      eexists; reflexivity.
  - simpl in Hn2. inversion Hn2; subst n2; clear Hn2.
    assert (Hge : (100 <= number_value n1)%Q).
    { apply Qnot_lt_le. intros L. apply (proj2 (lt_int_spec n1 100)) in L. congruence. }
    exists (NInt 100). split; [reflexivity |].
    repeat split; simpl; intros; try discriminate; try reflexivity; try q_arith.
    eexists; reflexivity.
Qed.

Lemma stage_records_status (sid next : Z) (batch : list ComplianceRecordBase) (ai : json) :
  Forall2 (fun record_data r => r_status r = status_value record_data)
    batch (map (set_ai_analysis ai) (stage_records sid next batch)).
Proof.
  revert next. induction batch as [| record_data rest IH]; intros next; simpl.
  - constructor.
  - constructor; [reflexivity | apply IH].
Qed.

Lemma in_list_cons (x y : string) (l : list string) :
  in_list x (y :: l) = true <-> x = y \/ in_list x l = true.
Proof.
  unfold in_list. simpl. rewrite orb_true_iff, String.eqb_eq. reflexivity.
Qed.

Lemma in_pair (x a b : string) :
  in_list x [a; b] = true <-> x = a \/ x = b.
Proof.
  rewrite in_list_cons, in_list_cons. unfold in_list; simpl.
  split; intros [H | H]; auto.
  - destruct H as [H | H]; [auto | discriminate H].
Qed.

Lemma Forall2_impl {A B : Type} (P Q : A -> B -> Prop) (l : list A) (l' : list B) :
  (forall a b, P a b -> Q a b) -> Forall2 P l l' -> Forall2 Q l l'.
Proof.
  intros HPQ H. induction H; constructor; auto.
Qed.

(** C1.  Every record created by a successful ingestion from an item with
    an expected value carries the verdict of the comparison policy of its
    metric name, compared case-insensitively: for [delivery_time] and
    [lead_time] it is compliant exactly when [result <= expected_value],
    for [quality_score] and [quality_rating] exactly when
    [result >= expected_value], and non-compliant otherwise. *)
Theorem ingestion_classifies_by_metric (db db' : database)
    (request : ComplianceCheckRequest) (ai : json) (resp : ComplianceCheckResponse) :
  check_compliance db request ai = Ok (db', resp) ->
  Forall2
    (fun record_data r =>
       forall expected, expected_value record_data = Some expected ->
         (lower (metric record_data) = "delivery_time"
          \/ lower (metric record_data) = "lead_time" ->
            (r_status r = "compliant" <-> (result record_data <= expected)%Q)
            /\ (r_status r = "non-compliant" <-> ~ (result record_data <= expected)%Q))
         /\ (lower (metric record_data) = "quality_score"
             \/ lower (metric record_data) = "quality_rating" ->
               (r_status r = "compliant" <-> (expected <= result record_data)%Q)
               /\ (r_status r = "non-compliant" <-> ~ (expected <= result record_data)%Q)))
    (compliance_data request) (resp_compliance_records resp).
Proof.
  intros H. apply check_compliance_Ok in H.
  destruct H as (supplier & kvs & n1 & n2 & stored & _ & _ & _ & _ & _ & _ & ->). simpl.
  eapply Forall2_impl; [| apply stage_records_status].
  intros record_data r Hr expected He. rewrite Hr; clear Hr.
  unfold status_value. rewrite He. split; intros Hm.
  - apply in_pair in Hm. rewrite Hm.
    destruct (Qle_bool (result record_data) expected) eqn:E.
    + apply Qle_bool_iff in E. repeat split; intros; try assumption;
        try reflexivity; try discriminate; contradiction.
    + assert (Hn : ~ (result record_data <= expected)%Q).
      { intros L. apply Qle_bool_iff in L. congruence. }
      repeat split; intros; try assumption; try reflexivity;
        try discriminate; contradiction.
  - assert (Hl : in_list (lower (metric record_data)) ["delivery_time"; "lead_time"] = false).
    { destruct (in_list (lower (metric record_data)) ["delivery_time"; "lead_time"]) eqn:E;
        [| reflexivity].
      apply in_pair in E. destruct Hm as [Hm | Hm], E as [E | E];
        rewrite Hm in E; discriminate E. }
    rewrite Hl. apply in_pair in Hm. rewrite Hm.
    destruct (Qle_bool expected (result record_data)) eqn:E.
    + apply Qle_bool_iff in E. repeat split; intros; try assumption;
        try reflexivity; try discriminate; contradiction.
    + assert (Hn : ~ (expected <= result record_data)%Q).
      { intros L. apply Qle_bool_iff in L. congruence. }
      repeat split; intros; try assumption; try reflexivity;
        try discriminate; contradiction.
Qed.

Lemma ingestion_classifies_by_metric_witness :
  check_compliance sample_db (mkCheckRequest 1 sample_batch) (sample_opinion (JInt 90))
  = Ok (mkDatabase
          [mkSupplier 1 "Acme" "France" (JInt 90)]
          (compliance_records sample_db ++
             map (set_ai_analysis (sample_opinion (JInt 90)))
               (stage_records 1 3 sample_batch))%list
          7 1,
        mkCheckResponse 1
          (map (set_ai_analysis (sample_opinion (JInt 90))) (stage_records 1 3 sample_batch))
          (sample_opinion (JInt 90)) (JInt 90))
  /\ (r_status (mkRecord 3 1 "Delivery_Time" sample_date 6 (Some 5%Q) "non-compliant"
                  (Some (sample_opinion (JInt 90))) None None) = "compliant"
      <-> (6 <= 5)%Q).
Proof.
  split; [reflexivity |].
  pose proof (ingestion_classifies_by_metric sample_db _
                (mkCheckRequest 1 sample_batch) (sample_opinion (JInt 90)) _
                eq_refl) as H.
  inversion H as [| record_data r rest rest' Hhead Htail]; subst.
  destruct (Hhead 5%Q eq_refl) as [Hlow _].
  exact (proj1 (Hlow (or_introl eq_refl))).
Defined.

(** C6.  The classifier returns the caller-supplied status verbatim when
    the expected value is absent, and also when it is present but the
    lower-cased metric name is none of the four recognized names; it is a
    total function whose result then depends on neither number. *)
Theorem status_value_falls_back (record_data : ComplianceRecordBase) :
  (expected_value record_data = None ->
     status_value record_data = status record_data)
  /\ (forall expected,
        expected_value record_data = Some expected ->
        lower (metric record_data) <> "delivery_time" ->
        lower (metric record_data) <> "lead_time" ->
        lower (metric record_data) <> "quality_score" ->
        lower (metric record_data) <> "quality_rating" ->
        status_value record_data = status record_data).
Proof.
  unfold status_value. split.
  - intros ->. reflexivity.
  - intros expected -> H1 H2 H3 H4.
    destruct (in_list (lower (metric record_data)) ["delivery_time"; "lead_time"]) eqn:E1.
    { apply in_pair in E1. tauto. }
    destruct (in_list (lower (metric record_data)) ["quality_score"; "quality_rating"]) eqn:E2.
    { apply in_pair in E2. tauto. }
    reflexivity.
Qed.

Lemma status_value_falls_back_witness :
  status_value (mkRecordBase "lead_time" sample_date 3 None "compliant") = "compliant"
  /\ status_value (mkRecordBase "defect_rate" sample_date 2 (Some 1%Q) "excused-weather")
     = "excused-weather".
Proof.
  split.
  - apply (proj1 (status_value_falls_back
                    (mkRecordBase "lead_time" sample_date 3 None "compliant"))).
    reflexivity.
  - apply (proj2 (status_value_falls_back
                    (mkRecordBase "defect_rate" sample_date 2 (Some 1%Q) "excused-weather"))
             1%Q); simpl; [reflexivity | discriminate ..].
Defined.

Lemma round_half_away_comp (q q' : Q) :
  (q == q')%Q -> round_half_away q = round_half_away q'.
Proof.
  intros H. unfold round_half_away.
  assert (Hb : Qle_bool 0 q = Qle_bool 0 q').
  { destruct (Qle_bool 0 q) eqn:E1, (Qle_bool 0 q') eqn:E2; try reflexivity.
    - apply Qle_bool_iff in E1. assert (L : (0 <= q')%Q) by lra.
      apply Qle_bool_iff in L. congruence.
    - apply Qle_bool_iff in E2. assert (L : (0 <= q)%Q) by lra.
      apply Qle_bool_iff in L. congruence. }
  rewrite Hb. destruct (Qle_bool 0 q').
  - apply Qfloor_comp. lra.
  - f_equal. apply Qfloor_comp. lra.
Qed.

(** What a successful ingestion leaves as the score of its supplier. *)
Lemma ingestion_score (db db' : database) (request : ComplianceCheckRequest)
    (ai : json) (resp : ComplianceCheckResponse) :
  check_compliance db request ai = Ok (db', resp) ->
  exists supplier kvs suggested clamped,
    query_supplier db (check_supplier_id request) = Some supplier
    /\ ai = JObj kvs
    /\ py_number (match lookup "compliance_score_suggestion" kvs with
                  | Some v => v
                  | None => s_compliance_score supplier
                  end) = Ok suggested
    /\ query_supplier db' (check_supplier_id request)
       = Some (set_compliance_score
                 (JInt (round_half_away (number_value clamped))) supplier)
    /\ updated_compliance_score resp = JInt (round_half_away (number_value clamped))
    /\ (0 <= number_value clamped <= 100)%Q
    /\ ((0 <= number_value suggested <= 100)%Q ->
          (number_value clamped == number_value suggested)%Q)
    /\ ((number_value suggested < 0)%Q -> clamped = NInt 0)
    /\ ((100 < number_value suggested)%Q -> clamped = NInt 100).
Proof.
  intros H. apply check_compliance_Ok in H.
  destruct H as (supplier & kvs & n1 & n2 & stored & Hs & -> & H).
  cbv zeta in H. destruct H as (Hn1 & Hn2 & Hcommit & -> & ->).
  destruct (clamped_score _ n1 n2 Hn1 Hn2)
    as (n & Hn & Hrange & Hin & Hlow & Hhigh & _ & _).
  apply commit_compliance_score_Ok in Hcommit.
  destruct Hcommit as (n' & Hn' & -> & _).
  rewrite Hn in Hn'. inversion Hn'; subst n'; clear Hn'.
  exists supplier, kvs, n1, n.
  split; [exact Hs |]. split; [reflexivity |]. split; [exact Hn1 |].
  split.
  { unfold query_supplier; simpl. apply find_update_first; [exact Hs |].
    simpl. unfold query_supplier in Hs. apply find_some in Hs. apply Hs. }
  split; [reflexivity |]. repeat split; try assumption; apply Hrange.
Qed.

(** C8, refuted as stated: the suggestion 85.5 lies in the interval, and
    the score stored and returned for it is 86. *)
Lemma ingestion_stores_rounded_score :
  ~ (forall db request ai db' resp,
       check_compliance db request ai = Ok (db', resp) ->
       exists supplier supplier' kvs suggested after,
         query_supplier db (check_supplier_id request) = Some supplier
         /\ ai = JObj kvs
         /\ py_number (match lookup "compliance_score_suggestion" kvs with
                       | Some v => v
                       | None => s_compliance_score supplier
                       end) = Ok suggested
         /\ query_supplier db' (check_supplier_id request) = Some supplier'
         /\ updated_compliance_score resp = s_compliance_score supplier'
         /\ py_number (s_compliance_score supplier') = Ok after
         /\ (0 <= number_value after <= 100)%Q
         /\ ((0 <= number_value suggested <= 100)%Q ->
               (number_value after == number_value suggested)%Q)
         /\ ((number_value suggested < 0)%Q -> s_compliance_score supplier' = JInt 0)
         /\ ((100 < number_value suggested)%Q ->
               s_compliance_score supplier' = JInt 100)).
Proof.
  intros Hclaim.
  destruct (Hclaim sample_db (mkCheckRequest 1 []) (sample_opinion (JFloat 85.5)) _ _
              eq_refl)
    as (supplier & supplier' & kvs & suggested & after
        & _ & Hai & Hn & Hq & _ & Hafter & _ & Hin & _).
  inversion Hai; subst kvs; clear Hai.
  simpl in Hn. inversion Hn; subst suggested; clear Hn.
  inversion Hq; subst supplier'; clear Hq.
  simpl in Hafter. inversion Hafter; subst after; clear Hafter.
  simpl in Hin.
  assert (Hr : (0 <= 85.5 <= 100)%Q) by (split; unfold Qle; simpl; lia).
  specialize (Hin Hr). unfold Qeq in Hin. simpl in Hin. lia.
Qed.

(** C8, as the code has it.  After a successful ingestion the supplier's
    score, which is also the score returned, is an integer between 0 and
    100: the advisory suggestion, or the supplier's previous score when the
    opinion has no suggestion, clamped into [0, 100] and then stored in the
    integer column, which rounds a fraction to the nearest integer.  It is
    0 for a suggestion below 0 and 100 for one above 100; for a suggestion
    of the interval it is the nearest integer, so the suggestion itself
    when that is an integer, and within one half of it otherwise. *)
Theorem ingestion_clamps_score (db db' : database)
    (request : ComplianceCheckRequest) (ai : json) (resp : ComplianceCheckResponse) :
  check_compliance db request ai = Ok (db', resp) ->
  exists supplier supplier' kvs suggested k,
    query_supplier db (check_supplier_id request) = Some supplier
    /\ ai = JObj kvs
    /\ py_number (match lookup "compliance_score_suggestion" kvs with
                  | Some v => v
                  | None => s_compliance_score supplier
                  end) = Ok suggested
    /\ query_supplier db' (check_supplier_id request) = Some supplier'
    /\ updated_compliance_score resp = s_compliance_score supplier'
    /\ s_compliance_score supplier' = JInt k
    /\ 0 <= k <= 100
    /\ ((0 <= number_value suggested <= 100)%Q ->
          k = round_half_away (number_value suggested)
          /\ (inject_Z k - (1 # 2) <= number_value suggested
              /\ number_value suggested <= inject_Z k + (1 # 2))%Q
          /\ (forall z, (number_value suggested == inject_Z z)%Q -> k = z))
    /\ ((number_value suggested < 0)%Q -> k = 0)
    /\ ((100 < number_value suggested)%Q -> k = 100).
Proof.
  intros H. apply ingestion_score in H.
  destruct H as (supplier & kvs & suggested & clamped
                 & Hs & Hai & Hn & Hq & Hresp & Hrange & Hin & Hlow & Hhigh).
  exists supplier,
    (set_compliance_score (JInt (round_half_away (number_value clamped))) supplier),
    kvs, suggested, (round_half_away (number_value clamped)).
  split; [exact Hs |]. split; [exact Hai |]. split; [exact Hn |].
  split; [exact Hq |]. split; [exact Hresp |]. split; [reflexivity |].
  split; [apply round_half_away_bounds; exact Hrange |].
  split; [| split].
  - intros Hr. specialize (Hin Hr).
    rewrite (round_half_away_comp _ _ Hin).
    split; [reflexivity |]. split; [apply round_half_away_near |].
    intros z Hz. apply round_half_away_Z. exact Hz.
  - intros Hl. rewrite (Hlow Hl). reflexivity.
  - intros Hh. rewrite (Hhigh Hh). reflexivity.
Qed.

Lemma ingestion_clamps_score_witness :
  check_compliance sample_db (mkCheckRequest 1 []) (sample_opinion (JInt 150))
  = Ok (mkDatabase [mkSupplier 1 "Acme" "France" (JInt 100)]
          (compliance_records sample_db) 3 1,
        mkCheckResponse 1 [] (sample_opinion (JInt 150)) (JInt 100))
  /\ exists supplier',
       query_supplier
         (mkDatabase [mkSupplier 1 "Acme" "France" (JInt 100)]
            (compliance_records sample_db) 3 1) 1 = Some supplier'
       /\ s_compliance_score supplier' = JInt 100.
Proof.
  split; [reflexivity |].
  destruct (ingestion_clamps_score sample_db _ (mkCheckRequest 1 [])
              (sample_opinion (JInt 150)) _ eq_refl)
    as (supplier & supplier' & kvs & suggested & k
        & _ & Hai & Hn & Hq & _ & Hk & _ & _ & _ & Hhigh).
  exists supplier'. split; [exact Hq |].
  rewrite Hk. f_equal.
  apply Hhigh. inversion Hai; subst kvs. simpl in Hn.
  inversion Hn; subst suggested. reflexivity.
Defined.

(** The two scores of the specification's clamp example, and a fraction. *)
Example score_150_becomes_100 :
  option_map s_compliance_score
    (match check_compliance sample_db (mkCheckRequest 1 sample_batch)
             (sample_opinion (JInt 150)) with
     | Ok (db', _) => query_supplier db' 1
     | Raise _ => None
     end) = Some (JInt 100).
Proof. reflexivity. Qed.

Example score_minus_20_becomes_0 :
  option_map s_compliance_score
    (match check_compliance sample_db (mkCheckRequest 1 sample_batch)
             (sample_opinion (JInt (-20))) with
     | Ok (db', _) => query_supplier db' 1
     | Raise _ => None
     end) = Some (JInt 0).
Proof. reflexivity. Qed.

Example score_85_5_becomes_86 :
  option_map s_compliance_score
    (match check_compliance sample_db (mkCheckRequest 1 sample_batch)
             (sample_opinion (JFloat 85.5)) with
     | Ok (db', _) => query_supplier db' 1
     | Raise _ => None
     end) = Some (JInt 86).
Proof. reflexivity. Qed.

Example score_true_is_refused :
  check_compliance sample_db (mkCheckRequest 1 sample_batch) (sample_opinion (JBool true))
  = Raise (HTTPException 500).
Proof. reflexivity. Qed.


(** ** The justification text *)

Lemma append_assoc (a b c : string) : ((a ++ b) ++ c = a ++ (b ++ c))%string.
Proof.
  induction a as [| x a IH]; simpl; [reflexivity | rewrite IH; reflexivity].
Qed.

(** C5.  The justification is the fixed sentence for no findings, the
    singular sentence for one finding and, for two or more, the plural
    sentence in which the descriptions but the last are joined by ", " and
    followed by " and " and the last one.  A finding is described by its
    description text when it carries a measurement and otherwise by its
    category name with underscores replaced by spaces, title-cased. *)
Theorem justification_format (weather_desc : string) :
  let describe c :=
    match c_measurement c with
    | Some _ => c_description c
    | None => title (replace "_" " " (c_type c))
    end in
  _generate_justification [] weather_desc
  = "No adverse weather conditions detected that would impact delivery."
  /\ (forall c,
        _generate_justification [c] weather_desc
        = "Delivery delay justified due to adverse weather: " ++ describe c
            ++ ". Weather conditions: " ++ weather_desc ++ ".")
  /\ (forall front c,
        front <> [] ->
        _generate_justification (front ++ [c])%list weather_desc
        = "Delivery delay justified due to multiple adverse weather conditions: "
            ++ String.concat ", " (map describe front) ++ " and " ++ describe c
            ++ ". Weather conditions: " ++ weather_desc ++ ".")
  /\ title (replace "_" " " "heavy_rain") = "Heavy Rain".
Proof.
  intros describe. repeat split.
  intros front c Hfront.
  destruct front as [| c0 front]; [contradiction |].
  unfold _generate_justification.
  change ((c0 :: front) ++ [c])%list with (c0 :: (front ++ [c]))%list.
  cbv zeta.
  replace (List.length (map condition_description (c0 :: front ++ [c])%list) =? 1)%nat
    with false.
  - change (c0 :: (front ++ [c]))%list with ((c0 :: front) ++ [c])%list.
    rewrite map_app. simpl (map condition_description [c]).
    rewrite removelast_last, last_last.
    rewrite !append_assoc. reflexivity.
  - destruct front; reflexivity.
Qed.

Lemma justification_format_witness :
  [mkCondition "fog" "mist" (Some "mist") None] <> []
  /\ _generate_justification
       [mkCondition "fog" "mist" (Some "mist") None;
        mkCondition "strong_wind" "Strong winds: 20 m/s" None (Some (NInt 20))] "mist"
     = "Delivery delay justified due to multiple adverse weather conditions: Fog and Strong winds: 20 m/s. Weather conditions: mist.".
Proof.
  split; [discriminate |].
  apply (proj1 (proj2 (proj2 (justification_format "mist")))
           [mkCondition "fog" "mist" (Some "mist") None]
           (mkCondition "strong_wind" "Strong winds: 20 m/s" None (Some (NInt 20)))).
  discriminate.
Defined.

(** ** The detector *)

Lemma py_get_Ok (v : json) (k : string) (default x : json) :
  py_get v k default = Ok x -> exists kvs, v = JObj kvs /\ x = field kvs k default.
Proof.
  destruct v; simpl; intros E; try discriminate E.
  inversion E. exists kvs. split; reflexivity.
Qed.

Lemma py_lower_Ok (v : json) (s : string) :
  py_lower v = Ok s -> exists t, v = JStr t /\ s = lower t.
Proof.
  destruct v; simpl; intros E; try discriminate E.
  inversion E. exists s0. split; reflexivity.
Qed.

Lemma precipitation_amount_Ok (v x : json) :
  precipitation_amount v = Ok x -> exists p, v = JObj p /\ x = chosen_amount p.
Proof.
  unfold precipitation_amount. intros E. bind_inv E as one_hour Hm.
  apply py_get_Ok in Hm. destruct Hm as (p & -> & ->).
  exists p. split; [reflexivity |]. unfold chosen_amount.
  destruct (truthy (field p "1h" (JInt 0))).
  - inversion E. reflexivity.
  - simpl in E. inversion E. reflexivity.
Qed.

(** One precipitation block: nothing for a falsy field, otherwise the
    threshold on the chosen amount of the map. *)
Lemma precipitation_block `{Collaborators} (v : json) (category label unit : string)
    (k : Z) (found found' : list condition) :
  (if truthy v
   then amount <- precipitation_amount v ;;
        n <- py_number amount ;;
        Ok (if gt_int n k
            then snoc found (mkCondition category (label ++ number_str n ++ unit)
                               None (Some n))
            else found)
   else Ok found) = Ok found' ->
  (truthy v = false /\ found' = found)
  \/ (exists p n, v = JObj p /\ p <> [] /\ py_number (chosen_amount p) = Ok n
                  /\ found' = (found ++ threshold_part category label unit k n)%list).
Proof.
  destruct (truthy v) eqn:Et; intros E.
  - right. bind_inv E as amount Hm. bind_inv E as n Hn.
    apply precipitation_amount_Ok in Hm. destruct Hm as (p & -> & ->).
    exists p, n. repeat split.
    + intros ->. discriminate Et.
    + exact Hn.
    + inversion E. unfold threshold_part, snoc.
      destruct (gt_int n k); [reflexivity | rewrite app_nil_r; reflexivity].
  - left. inversion E. split; reflexivity.
Qed.

Lemma py_getitem_Ok (v : json) (k : string) (x : json) :
  py_getitem v k = Ok x -> exists kvs, v = JObj kvs /\ lookup k kvs = Some x.
Proof.
  destruct v; simpl; intros E; try discriminate E.
  exists kvs. split; [reflexivity |].
  destruct (lookup k kvs); [inversion E; reflexivity | discriminate E].
Qed.

(** What a completed analysis did: either the early return, or the four
    groups of findings in order. *)
Lemma analyze_adverse_weather_Ok `{Collaborators} (weather_data : json) (a : analysis) :
  analyze_adverse_weather weather_data = Ok a ->
  (a = no_weather_data
   /\ (truthy weather_data = false \/ py_in "data" weather_data = Ok false))
  \/ exists kvs info rest w0 d m wind_n rain_part snow_part,
       weather_data = JObj kvs
       /\ lookup "data" kvs = Some (JList (JObj info :: rest))
       /\ py_getitem0 (field info "weather" (JList [JObj []])) = Ok (JObj w0)
       /\ field w0 "description" (JStr "") = JStr d
       /\ field w0 "main" (JStr "") = JStr m
       /\ py_number (field info "wind_speed" (JInt 0)) = Ok wind_n
       /\ ((truthy (field info "rain" (JObj [])) = false /\ rain_part = [])
           \/ exists p n,
                field info "rain" (JObj []) = JObj p /\ p <> []
                /\ py_number (chosen_amount p) = Ok n
                /\ rain_part = threshold_part "heavy_rain" "Heavy rainfall: " "mm" 10 n)
       /\ ((truthy (field info "snow" (JObj [])) = false /\ snow_part = [])
           \/ exists p n,
                field info "snow" (JObj []) = JObj p /\ p <> []
                /\ py_number (chosen_amount p) = Ok n
                /\ snow_part = threshold_part "snow" "Snowfall: " "mm" 0 n)
       /\ let found :=
            (((keyword_hits (lower d) (lower m) ++ rain_part) ++ snow_part)
               ++ threshold_part "strong_wind" "Strong winds: " " m/s" 15 wind_n)%list in
          a = mkAnalysis (0 <? List.length found)%nat found
                (if (0 <? List.length found)%nat then
                   if existsb (fun keyword => contains keyword (lower d)) severity_keywords
                   then "high"
                   else if (1 <? List.length found)%nat then "medium" else "low"
                 else "none")
                (_generate_justification found (lower d))
                (Some (mkEcho (lower d) (field info "temp" JNull)
                         (field info "wind_speed" (JInt 0))
                         (field kvs "mock" (JBool false)))).
Proof.
  unfold analyze_adverse_weather. intros E.
  bind_inv E as has_data Hm. destruct has_data; cbn [negb] in E.
  2:{ left. inversion E. split; [reflexivity |].
      destruct (truthy weather_data); [right; exact Hm | left; reflexivity]. }
  right. clear Hm.
  bind_inv E as data Hm. apply py_getitem_Ok in Hm. destruct Hm as (kvs & -> & Hdata).
  bind_inv E as weather_info Hinfo.
  bind_inv E as w Hm. apply py_get_Ok in Hm. destruct Hm as (info & -> & ->).
  bind_inv E as w0j Hw0.
  bind_inv E as dj Hm. apply py_get_Ok in Hm. destruct Hm as (w0 & -> & ->).
  bind_inv E as weather_desc Hm. apply py_lower_Ok in Hm. destruct Hm as (d & Hd & ->).
  bind_inv E as mj Hm. apply py_get_Ok in Hm. destruct Hm as (w0' & Hw0' & ->).
  inversion Hw0'; subst w0'; clear Hw0'.
  bind_inv E as weather_main Hm. apply py_lower_Ok in Hm. destruct Hm as (m & Hmain & ->).
  bind_inv E as rain Hm. apply py_get_Ok in Hm. destruct Hm as (info' & Hi & ->).
  inversion Hi; subst info'; clear Hi.
  bind_inv E as snow Hm. apply py_get_Ok in Hm. destruct Hm as (info' & Hi & ->).
  inversion Hi; subst info'; clear Hi.
  bind_inv E as found1 Hrain. apply precipitation_block in Hrain.
  bind_inv E as found2 Hsnow. apply precipitation_block in Hsnow.
  bind_inv E as wind Hm. apply py_get_Ok in Hm. destruct Hm as (info' & Hi & ->).
  inversion Hi; subst info'; clear Hi.
  bind_inv E as wind_n Hwind.
  bind_inv E as temp Hm. apply py_get_Ok in Hm. destruct Hm as (info' & Hi & ->).
  inversion Hi; subst info'; clear Hi.
  bind_inv E as mock Hm. apply py_get_Ok in Hm. destruct Hm as (kvs' & Hk & ->).
  inversion Hk; subst kvs'; clear Hk.
  assert (Hlist : exists rest, data = JList (JObj info :: rest)).
  { destruct data as [| | | | s | l |]; simpl in Hinfo; try discriminate Hinfo.
    - destruct s; [discriminate Hinfo | inversion Hinfo].
    - destruct l as [| x rest]; [discriminate Hinfo |].
      inversion Hinfo; subst x. exists rest. reflexivity. }
  destruct Hlist as (rest & ->).
  exists kvs, info, rest, w0, d, m, wind_n.
  assert (Hparts : exists rain_part snow_part,
             ((truthy (field info "rain" (JObj [])) = false /\ rain_part = [])
              \/ exists p n,
                   field info "rain" (JObj []) = JObj p /\ p <> []
                   /\ py_number (chosen_amount p) = Ok n
                   /\ rain_part = threshold_part "heavy_rain" "Heavy rainfall: " "mm" 10 n)
             /\ ((truthy (field info "snow" (JObj [])) = false /\ snow_part = [])
                 \/ exists p n,
                      field info "snow" (JObj []) = JObj p /\ p <> []
                      /\ py_number (chosen_amount p) = Ok n
                      /\ snow_part = threshold_part "snow" "Snowfall: " "mm" 0 n)
             /\ found2 = ((keyword_hits (lower d) (lower m) ++ rain_part) ++ snow_part)%list).
  { destruct Hrain as [[Hr ->] | (p & n & Hp & Hne & Hn & ->)];
      destruct Hsnow as [[Hs ->] | (p' & n' & Hp' & Hne' & Hn' & ->)].
    - exists [], []. repeat split; auto. rewrite !app_nil_r. reflexivity.
    - exists [], (threshold_part "snow" "Snowfall: " "mm" 0 n').
      repeat split; auto.
      + right. exists p', n'. repeat split; auto.
      + rewrite app_nil_r. reflexivity.
    - exists (threshold_part "heavy_rain" "Heavy rainfall: " "mm" 10 n), [].
      repeat split; auto.
      + right. exists p, n. repeat split; auto.
      + rewrite app_nil_r. reflexivity.
    - exists (threshold_part "heavy_rain" "Heavy rainfall: " "mm" 10 n),
        (threshold_part "snow" "Snowfall: " "mm" 0 n').
      repeat split; auto.
      + right. exists p, n. repeat split; auto.
      + right. exists p', n'. repeat split; auto. }
  destruct Hparts as (rain_part & snow_part & Hr & Hs & ->).
  exists rain_part, snow_part.
  repeat split; try assumption.
  inversion E. unfold threshold_part, snoc.
  destruct (gt_int wind_n 15); [reflexivity | rewrite !app_nil_r; reflexivity].
Qed.

(** The amount of a map [p] is what the expression with [or] computes. *)
Lemma precipitation_amount_map (p : list (string * json)) :
  precipitation_amount (JObj p) = Ok (chosen_amount p).
Proof.
  unfold precipitation_amount, chosen_amount, py_get, field. simpl.
  destruct (truthy match lookup "1h" p with Some x => x | None => JInt 0 end);
    reflexivity.
Qed.

(** For a number, truthiness is being nonzero: the 1h value is chosen
    exactly when it is a nonzero number. *)
Lemma truthy_number (v : json) (n : number) :
  py_number v = Ok n -> (truthy v = true <-> ~ (number_value n == 0)%Q).
Proof.
  destruct v; simpl; intros E; inversion E; subst; simpl.
  - destruct b; split; intros Hn; try reflexivity; try discriminate Hn.
    + intros Hq. discriminate Hq.
    + exfalso. apply Hn. reflexivity.
  - rewrite negb_true_iff, Z.eqb_neq. unfold Qeq. simpl. lia.
  - rewrite negb_true_iff. split.
    + intros Hq Heq. apply Qeq_bool_iff in Heq. congruence.
    + intros Hn. destruct (Qeq_bool q 0) eqn:Eq; [| reflexivity].
      apply Qeq_bool_iff in Eq. contradiction.
Qed.

(** The analysis completes on every observation of the expected shape:
    a description and a main category that are strings, a wind speed that
    is a number, and precipitation fields that are falsy or maps whose
    chosen amount is a number. *)
Lemma analyze_adverse_weather_completes `{Collaborators}
    (kvs info w0 : list (string * json)) (rest : list json) (d m : string)
    (wind_n : number) :
  lookup "data" kvs = Some (JList (JObj info :: rest)) ->
  py_getitem0 (field info "weather" (JList [JObj []])) = Ok (JObj w0) ->
  field w0 "description" (JStr "") = JStr d ->
  field w0 "main" (JStr "") = JStr m ->
  py_number (field info "wind_speed" (JInt 0)) = Ok wind_n ->
  (truthy (field info "rain" (JObj [])) = false
   \/ exists p n, field info "rain" (JObj []) = JObj p
                  /\ py_number (chosen_amount p) = Ok n) ->
  (truthy (field info "snow" (JObj [])) = false
   \/ exists p n, field info "snow" (JObj []) = JObj p
                  /\ py_number (chosen_amount p) = Ok n) ->
  exists a, analyze_adverse_weather (JObj kvs) = Ok a.
Proof.
  intros Hdata Hw0 Hd Hm Hwind Hrain Hsnow.
  unfold analyze_adverse_weather.
  assert (Ht : truthy (JObj kvs) = true) by (destruct kvs; [discriminate Hdata | reflexivity]).
  rewrite Ht. unfold py_in, py_getitem. rewrite Hdata. cbn [bind negb py_getitem0].
  unfold py_get at 1. fold (field info "weather" (JList [JObj []])). cbn [bind].
  rewrite Hw0. cbn [bind].
  unfold py_get at 1. fold (field w0 "description" (JStr "")). rewrite Hd. cbn [bind py_lower].
  unfold py_get at 1. fold (field w0 "main" (JStr "")). rewrite Hm. cbn [bind py_lower].
  unfold py_get at 1. fold (field info "rain" (JObj [])). cbn [bind].
  unfold py_get at 1. fold (field info "snow" (JObj [])). cbn [bind].
  assert (Hr : exists found1,
             (if truthy (field info "rain" (JObj []))
              then v <- precipitation_amount (field info "rain" (JObj [])) ;;
                   rain_1h <- py_number v ;;
                   Ok (if gt_int rain_1h 10
                       then snoc (keyword_hits (lower d) (lower m))
                              (mkCondition "heavy_rain"
                                 ("Heavy rainfall: " ++ number_str rain_1h ++ "mm")
                                 None (Some rain_1h))
                       else keyword_hits (lower d) (lower m))
              else Ok (keyword_hits (lower d) (lower m))) = Ok found1).
  { destruct Hrain as [-> | (p & n & -> & Hn)]; [eexists; reflexivity |].
    destruct (truthy (JObj p)); [| eexists; reflexivity].
    rewrite precipitation_amount_map. cbn [bind]. rewrite Hn. cbn [bind].
    eexists; reflexivity. }
  destruct Hr as (found1 & ->). cbn [bind].
  assert (Hs : exists found2,
             (if truthy (field info "snow" (JObj []))
              then v <- precipitation_amount (field info "snow" (JObj [])) ;;
                   snow_1h <- py_number v ;;
                   Ok (if gt_int snow_1h 0
                       then snoc found1
                              (mkCondition "snow"
                                 ("Snowfall: " ++ number_str snow_1h ++ "mm")
                                 None (Some snow_1h))
                       else found1)
              else Ok found1) = Ok found2).
  { destruct Hsnow as [-> | (p & n & -> & Hn)]; [eexists; reflexivity |].
    destruct (truthy (JObj p)); [| eexists; reflexivity].
    rewrite precipitation_amount_map. cbn [bind]. rewrite Hn. cbn [bind].
    eexists; reflexivity. }
  destruct Hs as (found2 & ->). cbn [bind].
  unfold py_get at 1. fold (field info "wind_speed" (JInt 0)). cbn [bind].
  rewrite Hwind. cbn [bind].
  eexists. reflexivity.
Qed.

(** The early return covers a falsy input and an input without the key
    [data]. *)
Lemma analyze_without_data `{Collaborators} (weather_data : json) :
  truthy weather_data = false \/ py_in "data" weather_data = Ok false ->
  analyze_adverse_weather weather_data = Ok no_weather_data.
Proof.
  unfold analyze_adverse_weather.
  intros [Hf | Hin].
  - rewrite Hf. reflexivity.
  - rewrite Hin. destruct (truthy weather_data); reflexivity.
Qed.

(** Whatever else the document holds, an empty observation array raises. *)
Lemma empty_data_raises `{Collaborators} (kvs : list (string * json)) :
  lookup "data" kvs = Some (JList []) ->
  analyze_adverse_weather (JObj kvs) = Raise IndexError.
Proof.
  intros Hdata. unfold analyze_adverse_weather.
  assert (Ht : truthy (JObj kvs) = true) by (destruct kvs; [discriminate Hdata | reflexivity]).
  rewrite Ht. unfold py_in, py_getitem. rewrite Hdata. reflexivity.
Qed.

(** C2.  On an input whose observation array is present and empty the
    detector does not return the zero-finding result: the subscript
    [weather_data['data'][0]] raises [IndexError]. *)
Theorem empty_observation_array_raises `{Collaborators} :
  analyze_adverse_weather (JObj [("data", JList [])]) = Raise IndexError.
Proof. reflexivity. Qed.

Lemma keyword_hits_have_no_measurement (weather_desc weather_main : string) :
  Forall (fun c => c_measurement c = None) (keyword_hits weather_desc weather_main).
Proof.
  apply Forall_forall. intros c Hc. unfold keyword_hits in Hc.
  apply in_flat_map in Hc. destruct Hc as ((condition_type & keywords) & _ & Hc).
  apply in_flat_map in Hc. destruct Hc as (keyword & _ & Hc).
  destruct (contains keyword weather_desc || contains keyword weather_main).
  - destruct Hc as [<- | []]. reflexivity.
  - destruct Hc.
Qed.

Lemma filter_keyword_hits (category weather_desc weather_main : string) :
  filter (is_threshold_hit category) (keyword_hits weather_desc weather_main) = [].
Proof.
  pose proof (keyword_hits_have_no_measurement weather_desc weather_main) as Hall.
  induction Hall as [| c l Hc _ IH]; simpl; [reflexivity |].
  unfold is_threshold_hit at 1. rewrite Hc, andb_false_r. exact IH.
Qed.

Lemma severity_rule_agrees (found : list condition) (weather_desc : string) :
  (if (0 <? List.length found)%nat then
     if existsb (fun keyword => contains keyword weather_desc) severity_keywords
     then "high"
     else if (1 <? List.length found)%nat then "medium" else "low"
   else "none") = severity_rule found weather_desc.
Proof.
  destruct found as [| c [| c' rest]]; reflexivity.
Qed.

(** C3.  The severity of a completed analysis is [none] for no findings,
    else [high] when the lower-cased description contains a severity
    keyword, else [medium] for more than one finding, else [low]; a single
    finding under a description with such a keyword is [high], and two
    threshold findings under a description without one are [medium]. *)
Theorem severity_follows_rule `{Collaborators} :
  (forall weather_data a,
     analyze_adverse_weather weather_data = Ok a ->
     (conditions a = [] /\ severity a = "none")
     \/ exists kvs info rest w0 d,
          weather_data = JObj kvs
          /\ lookup "data" kvs = Some (JList (JObj info :: rest))
          /\ py_getitem0 (field info "weather" (JList [JObj []])) = Ok (JObj w0)
          /\ field w0 "description" (JStr "") = JStr d
          /\ severity a = severity_rule (conditions a) (lower d))
  /\ (exists a,
        analyze_adverse_weather
          (JObj [("data", JList [JObj [("weather",
                    JList [JObj [("main", JStr "Snow"); ("description", JStr "Snow")]])]])])
        = Ok a
        /\ List.length (conditions a) = 1%nat /\ severity a = "high")
  /\ (exists a,
        analyze_adverse_weather
          (JObj [("data", JList [JObj [("weather",
                    JList [JObj [("main", JStr "Rain"); ("description", JStr "light rain")]]);
                    ("rain", JObj [("1h", JInt 12)]);
                    ("wind_speed", JInt 20)]])])
        = Ok a
        /\ List.length (conditions a) = 2%nat /\ severity a = "medium").
Proof.
  split; [| split].
  - intros weather_data a Ha. apply analyze_adverse_weather_Ok in Ha.
    destruct Ha as [[-> _] | Ha].
    + left. split; reflexivity.
    + destruct Ha as (kvs & info & rest & w0 & d & m & wind_n & rain_part & snow_part
                      & -> & Hdata & Hw0 & Hd & _ & _ & _ & _ & Ha).
      cbv zeta in Ha. right. exists kvs, info, rest, w0, d.
      repeat split; try assumption.
      rewrite Ha. cbn [severity conditions]. apply severity_rule_agrees.
  - eexists. split; [reflexivity |]. split; reflexivity.
  - eexists. split; [reflexivity |]. split; reflexivity.
Qed.

Lemma severity_follows_rule_witness :
  @analyze_adverse_weather (sample_collaborators sample_storm) sample_storm
  = Ok (mkAnalysis true
          [mkCondition "heavy_rain" "Heavy rainfall: 15mm" None (Some (NInt 15))]
          "low"
          "Delivery delay justified due to adverse weather: Heavy rainfall: 15mm. Weather conditions: light rain."
          (Some (mkEcho "light rain" (JInt 18) (JInt 4) (JBool false))))
  /\ "low" = severity_rule
               [mkCondition "heavy_rain" "Heavy rainfall: 15mm" None (Some (NInt 15))]
               "light rain".
Proof.
  split; [reflexivity |].
  destruct (proj1 (@severity_follows_rule (sample_collaborators sample_storm))
              sample_storm _ eq_refl)
    as [[Hnil _] | (kvs & info & rest & w0 & d & Hwd & Hdata & Hw0 & Hd & Hsev)].
  - discriminate Hnil.
  - inversion Hwd; subst kvs. inversion Hdata; subst info rest.
    inversion Hw0; subst w0. inversion Hd; subst d. exact Hsev.
Defined.

Lemma filter_threshold_part_same `{Collaborators} (category label unit : string)
    (k : Z) (n : number) :
  filter (is_threshold_hit category) (threshold_part category label unit k n)
  = threshold_part category label unit k n.
Proof.
  unfold threshold_part. destruct (gt_int n k); [| reflexivity].
  simpl. unfold is_threshold_hit. simpl. rewrite String.eqb_refl. reflexivity.
Qed.

Lemma filter_threshold_part_other `{Collaborators} (category category' label unit : string)
    (k : Z) (n : number) :
  category' <> category ->
  filter (is_threshold_hit category) (threshold_part category' label unit k n) = [].
Proof.
  intros Hneq. unfold threshold_part. destruct (gt_int n k); [| reflexivity].
  simpl. unfold is_threshold_hit. simpl.
  apply String.eqb_neq in Hneq. rewrite Hneq. reflexivity.
Qed.

Lemma field_absent_or_empty (info : list (string * json)) (k : string) :
  lookup k info = None \/ lookup k info = Some (JObj []) ->
  truthy (field info k (JObj [])) = false.
Proof.
  unfold field. intros [-> | ->]; reflexivity.
Qed.

(** C10.  In a completed analysis of an observation, a rain field that
    is a non-empty map is tested through its chosen amount (the 1h value
    when nonzero, otherwise the 3h value, 0 when absent): the heavy-rain
    threshold finding is present, carrying that amount as measurement,
    exactly when the amount exceeds 10; an absent or empty rain field gives
    no threshold finding for rain.  Snow follows the same choice with the
    threshold 0.  With rain 1h = 0 and 3h = 12 the finding carries 12. *)
Theorem precipitation_thresholds `{Collaborators} :
  (forall kvs info rest a,
     lookup "data" kvs = Some (JList (JObj info :: rest)) ->
     analyze_adverse_weather (JObj kvs) = Ok a ->
     (forall p,
        field info "rain" (JObj []) = JObj p -> p <> [] ->
        exists n,
          py_number (chosen_amount p) = Ok n
          /\ ((10 < number_value n)%Q ->
                filter (is_threshold_hit "heavy_rain") (conditions a)
                = [mkCondition "heavy_rain" ("Heavy rainfall: " ++ number_str n ++ "mm")
                     None (Some n)])
          /\ ((number_value n <= 10)%Q ->
                filter (is_threshold_hit "heavy_rain") (conditions a) = []))
     /\ (lookup "rain" info = None \/ lookup "rain" info = Some (JObj []) ->
           filter (is_threshold_hit "heavy_rain") (conditions a) = [])
     /\ (forall p,
           field info "snow" (JObj []) = JObj p -> p <> [] ->
           exists n,
             py_number (chosen_amount p) = Ok n
             /\ ((0 < number_value n)%Q ->
                   filter (is_threshold_hit "snow") (conditions a)
                   = [mkCondition "snow" ("Snowfall: " ++ number_str n ++ "mm")
                        None (Some n)])
             /\ ((number_value n <= 0)%Q ->
                   filter (is_threshold_hit "snow") (conditions a) = []))
     /\ (lookup "snow" info = None \/ lookup "snow" info = Some (JObj []) ->
           filter (is_threshold_hit "snow") (conditions a) = []))
  /\ (exists a,
        analyze_adverse_weather
          (JObj [("data", JList [JObj [("rain", JObj [("1h", JInt 0); ("3h", JInt 12)])]])])
        = Ok a
        /\ conditions a
           = [mkCondition "heavy_rain" "Heavy rainfall: 12mm" None (Some (NInt 12))]).
Proof.
  split.
  2:{ eexists. split; reflexivity. }
  intros kvs info rest a Hdata Ha.
  apply analyze_adverse_weather_Ok in Ha. destruct Ha as [[_ Hno] | Ha].
  { exfalso. destruct Hno as [Hno | Hno].
    - destruct kvs; [discriminate Hdata | discriminate Hno].
    - simpl in Hno. rewrite Hdata in Hno. discriminate Hno. }
  destruct Ha as (kvs' & info' & rest' & w0 & d & m & wind_n & rain_part & snow_part
                  & Hk & Hdata' & _ & _ & _ & _ & Hrain & Hsnow & Ha).
  inversion Hk; subst kvs'; clear Hk.
  rewrite Hdata in Hdata'. inversion Hdata'; subst info' rest'; clear Hdata'.
  cbv zeta in Ha. subst a. cbn [conditions].
  assert (Hr : filter (is_threshold_hit "heavy_rain")
                 (((keyword_hits (lower d) (lower m) ++ rain_part) ++ snow_part)
                    ++ threshold_part "strong_wind" "Strong winds: " " m/s" 15 wind_n)
               = filter (is_threshold_hit "heavy_rain") rain_part).
  { rewrite !filter_app, filter_keyword_hits.
    rewrite (filter_threshold_part_other "heavy_rain" "strong_wind") by discriminate.
    destruct Hsnow as [[_ ->] | (p & n & _ & _ & _ & ->)].
    - simpl. rewrite ?app_nil_r. reflexivity.
    - rewrite (filter_threshold_part_other "heavy_rain" "snow") by discriminate.
      simpl. rewrite ?app_nil_r. reflexivity. }
  assert (Hs : filter (is_threshold_hit "snow")
                 (((keyword_hits (lower d) (lower m) ++ rain_part) ++ snow_part)
                    ++ threshold_part "strong_wind" "Strong winds: " " m/s" 15 wind_n)
               = filter (is_threshold_hit "snow") snow_part).
  { rewrite !filter_app, filter_keyword_hits.
    rewrite (filter_threshold_part_other "snow" "strong_wind") by discriminate.
    destruct Hrain as [[_ ->] | (p & n & _ & _ & _ & ->)].
    - simpl. rewrite ?app_nil_r. reflexivity.
    - rewrite (filter_threshold_part_other "snow" "heavy_rain") by discriminate.
      simpl. rewrite ?app_nil_r. reflexivity. }
  rewrite Hr, Hs. clear Hr Hs.
  split; [| split; [| split]].
  - intros p Hp Hne.
    destruct Hrain as [[Hf _] | (p' & n & Hp' & _ & Hn & ->)].
    { rewrite Hp in Hf. destruct p; [contradiction | discriminate Hf]. }
    rewrite Hp in Hp'. inversion Hp'; subst p'; clear Hp'.
    exists n. split; [exact Hn |].
    rewrite filter_threshold_part_same. unfold threshold_part.
    split; intros Hcmp.
    + apply (proj2 (gt_int_spec n 10)) in Hcmp. rewrite Hcmp. reflexivity.
    + destruct (gt_int n 10) eqn:E; [| reflexivity].
      apply gt_int_spec in E. q_arith.
  - intros Habsent. apply field_absent_or_empty in Habsent.
    destruct Hrain as [[_ ->] | (p' & n & Hp' & Hne & _ & _)]; [reflexivity |].
    rewrite Hp' in Habsent. destruct p'; [contradiction | discriminate Habsent].
  - intros p Hp Hne.
    destruct Hsnow as [[Hf _] | (p' & n & Hp' & _ & Hn & ->)].
    { rewrite Hp in Hf. destruct p; [contradiction | discriminate Hf]. }
    rewrite Hp in Hp'. inversion Hp'; subst p'; clear Hp'.
    exists n. split; [exact Hn |].
    rewrite filter_threshold_part_same. unfold threshold_part.
    split; intros Hcmp.
    + apply (proj2 (gt_int_spec n 0)) in Hcmp. rewrite Hcmp. reflexivity.
    + destruct (gt_int n 0) eqn:E; [| reflexivity].
      apply gt_int_spec in E. q_arith.
  - intros Habsent. apply field_absent_or_empty in Habsent.
    destruct Hsnow as [[_ ->] | (p' & n & Hp' & Hne & _ & _)]; [reflexivity |].
    rewrite Hp' in Habsent. destruct p'; [contradiction | discriminate Habsent].
Qed.

Lemma precipitation_thresholds_witness :
  lookup "data" [("data", JList [JObj [("rain", JObj [("1h", JInt 0); ("3h", JInt 12)])]])]
  = Some (JList [JObj [("rain", JObj [("1h", JInt 0); ("3h", JInt 12)])]])
  /\ [("1h", JInt 0); ("3h", JInt 12)] <> []
  /\ forall a,
       @analyze_adverse_weather (sample_collaborators sample_storm)
         (JObj [("data", JList [JObj [("rain", JObj [("1h", JInt 0); ("3h", JInt 12)])]])])
       = Ok a ->
       filter (is_threshold_hit "heavy_rain") (conditions a)
       = [mkCondition "heavy_rain" "Heavy rainfall: 12mm" None (Some (NInt 12))].
Proof.
  split; [reflexivity |]. split; [discriminate |].
  intros a Ha.
  destruct (proj1 (@precipitation_thresholds (sample_collaborators sample_storm))
              [("data", JList [JObj [("rain", JObj [("1h", JInt 0); ("3h", JInt 12)])]])]
              [("rain", JObj [("1h", JInt 0); ("3h", JInt 12)])] [] a eq_refl Ha)
    as (Hrain & _).
  destruct (Hrain [("1h", JInt 0); ("3h", JInt 12)] eq_refl) as (n & Hn & Hgt & _).
  { discriminate. }
  inversion Hn; subst n.
  apply Hgt. reflexivity.
Defined.

(** ** Weather adjudication *)

Lemma excuse_status (wa : analysis) (r : ComplianceRecordModel) :
  (r_status (excuse wa r) =? "non-compliant")%string = false.
Proof. reflexivity. Qed.

Lemma in_update_first {A : Type} (p : A -> bool) (f : A -> A) (l : list A) (x : A) :
  find p l = Some x -> In (f x) (update_first p f l).
Proof.
  induction l as [| y l IH]; simpl; intros Hf.
  - discriminate Hf.
  - destruct (p y) eqn:Ey.
    + inversion Hf; subst. left. reflexivity.
    + right. apply IH. exact Hf.
Qed.

Lemma Forall2_diag {A : Type} (R : A -> A -> Prop) (l : list A) :
  (forall a, R a a) -> Forall2 R l l.
Proof.
  intros HR. induction l; constructor; auto.
Qed.

Lemma update_first_pointwise {A : Type} (p : A -> bool) (f : A -> A) (l : list A) (x : A) :
  find p l = Some x ->
  Forall2 (fun a b => b = a \/ (a = x /\ b = f x)) l (update_first p f l).
Proof.
  induction l as [| y l IH]; simpl; intros Hf.
  - discriminate Hf.
  - destruct (p y) eqn:Ey.
    + inversion Hf; subst. constructor.
      * right. split; reflexivity.
      * apply Forall2_diag. intros a. left. reflexivity.
    + constructor; [left; reflexivity | apply IH; exact Hf].
Qed.

Section Reclassify.

Variables (sid : Z) (compliance_record_id : option Z) (delivery : date)
          (wa : analysis).

Lemma reclassify_benign (records records' updated : list ComplianceRecordModel) :
  has_adverse_weather wa = false ->
  reclassify records sid compliance_record_id delivery wa = Ok (records', updated) ->
  records' = records /\ updated = [].
Proof.
  unfold reclassify. intros Hb. rewrite Hb.
  destruct (record_id_given compliance_record_id) as [rid |].
  - destruct (find _ records); simpl; intros E; inversion E; split; reflexivity.
  - intros E; inversion E; split; reflexivity.
Qed.

Lemma reclassify_updated (records records' updated : list ComplianceRecordModel) :
  reclassify records sid compliance_record_id delivery wa = Ok (records', updated) ->
  Forall (fun r => r_status r = "excused-weather" /\ In r records') updated.
Proof.
  unfold reclassify.
  destruct (record_id_given compliance_record_id) as [rid |].
  - destruct (find _ records) as [record |] eqn:Ef; [| discriminate].
    destruct (has_adverse_weather wa && (r_status record =? "non-compliant")%string);
      intros E; inversion E; subst; clear E.
    + constructor; [| constructor].
      split; [reflexivity |]. apply in_update_first. exact Ef.
    + constructor.
  - destruct (has_adverse_weather wa); intros E; inversion E; subst; clear E.
    + apply Forall_forall. intros r Hr.
      apply in_map_iff in Hr. destruct Hr as (r0 & <- & Hr0).
      apply filter_In in Hr0. destruct Hr0 as [Hin Hsel].
      split; [reflexivity |].
      apply in_map_iff. exists r0. split; [| exact Hin].
      rewrite Hsel. reflexivity.
    + constructor.
Qed.

Lemma reclassify_again (records records' updated : list ComplianceRecordModel) :
  reclassify records sid compliance_record_id delivery wa = Ok (records', updated) ->
  reclassify records' sid compliance_record_id delivery wa = Ok (records', []).
Proof.
  unfold reclassify.
  destruct (record_id_given compliance_record_id) as [rid |].
  - destruct (find _ records) as [record |] eqn:Ef; [| discriminate].
    destruct (has_adverse_weather wa && (r_status record =? "non-compliant")%string)
      eqn:Ec; intros E; inversion E; subst; clear E.
    + rewrite (find_update_first _ (excuse wa) records record Ef).
      * rewrite excuse_status, andb_false_r. reflexivity.
      * apply find_some in Ef. exact (proj2 Ef).
    + rewrite Ef, Ec. reflexivity.
  - destruct (has_adverse_weather wa); intros E; inversion E; subst; clear E;
      [| reflexivity].
    f_equal. f_equal.
    + rewrite map_map. apply map_ext. intros r.
      destruct ((r_supplier_id r =? sid) && date_eqb (r_date_recorded r) delivery
                && (r_status r =? "non-compliant")%string) eqn:Es.
      * simpl. rewrite andb_false_r. reflexivity.
      * rewrite Es. reflexivity.
    + induction records as [| r records IH]; [reflexivity |].
      simpl.
      destruct ((r_supplier_id r =? sid) && date_eqb (r_date_recorded r) delivery
                && (r_status r =? "non-compliant")%string) eqn:Es.
      * simpl. rewrite andb_false_r. exact IH.
      * rewrite Es. exact IH.
Qed.

Lemma reclassify_pointwise (records records' updated : list ComplianceRecordModel) :
  reclassify records sid compliance_record_id delivery wa = Ok (records', updated) ->
  Forall2 (fun r r' => r' = r
                       \/ (has_adverse_weather wa = true
                           /\ r_supplier_id r = sid
                           /\ r_status r = "non-compliant"
                           /\ r' = excuse wa r))
    records records'.
Proof.
  unfold reclassify.
  destruct (record_id_given compliance_record_id) as [rid |].
  - destruct (find _ records) as [record |] eqn:Ef; [| discriminate].
    destruct (has_adverse_weather wa) eqn:Ea; simpl;
      [destruct (r_status record =? "non-compliant")%string eqn:Ec |];
      intros E; inversion E; subst; clear E.
    + eapply Forall2_impl; [| apply update_first_pointwise; exact Ef].
      intros a b [-> | [-> ->]]; [left; reflexivity | right].
      apply find_some in Ef. destruct Ef as [_ Hmine].
      apply andb_true_iff in Hmine. destruct Hmine as [_ Hsid].
      apply Z.eqb_eq in Hsid. apply String.eqb_eq in Ec.
      repeat split; assumption.
    + apply Forall2_diag. intros a. left. reflexivity.
    + apply Forall2_diag. intros a. left. reflexivity.
  - destruct (has_adverse_weather wa) eqn:Ea; intros E; inversion E; subst; clear E.
    + induction records as [| r records IH]; simpl; constructor; [| exact IH].
      destruct ((r_supplier_id r =? sid) && date_eqb (r_date_recorded r) delivery
                && (r_status r =? "non-compliant")%string) eqn:Es;
        [right | left; reflexivity].
      apply andb_true_iff in Es. destruct Es as [Es Hst].
      apply andb_true_iff in Es. destruct Es as [Hsid _].
      apply Z.eqb_eq in Hsid. apply String.eqb_eq in Hst.
      repeat split; assumption.
    + apply Forall2_diag. intros a. left. reflexivity.
Qed.

End Reclassify.

(** What a completed adjudication did. *)
Lemma check_weather_impact_Ok `{Collaborators} (db db' : database)
    (request : WeatherImpactRequest) (resp : WeatherImpactResponse) :
  check_weather_impact db request = Ok (db', resp) ->
  exists supplier coordinates delivery wa records' updated,
    query_supplier db (supplier_id request) = Some supplier
    /\ match lat request, lon request with
       | Some la, Some lo => Ok (la, lo)
       | _, _ =>
           match get_coordinates_from_country (s_country supplier) with
           | Some c => Ok c
           | None => Raise (HTTPException 400)
           end
       end = Ok coordinates
    /\ strptime_date (delivery_date request) = Some delivery
    /\ truthy (get_historical_weather (fst coordinates) (snd coordinates)
                 (delivery_date request)) = true
    /\ analyze_adverse_weather
         (get_historical_weather (fst coordinates) (snd coordinates)
            (delivery_date request)) = Ok wa
    /\ reclassify (compliance_records db) (supplier_id request)
         (compliance_record_id request) delivery wa = Ok (records', updated)
    /\ db' = mkDatabase (suppliers db) records' (next_record_id db)
               (match updated with [] => commits db | _ :: _ => S (commits db) end)
    /\ resp = mkWeatherResponse (supplier_id request) (compliance_record_id request)
                wa (justification wa) (0 <? List.length updated)%nat updated.
Proof.
  unfold check_weather_impact. intros E.
  destruct (query_supplier db (supplier_id request)) as [supplier |]; [| discriminate E].
  bind_inv E as coordinates Hc.
  bind_inv E as delivery Hd.
  destruct (strptime_date (delivery_date request)) as [delivery' |] eqn:Edate;
    [| discriminate Hd].
  inversion Hd; subst delivery'; clear Hd.
  destruct (truthy (get_historical_weather (fst coordinates) (snd coordinates)
                      (delivery_date request))) eqn:Et; [| discriminate E].
  cbn [negb] in E.
  bind_inv E as wa Hwa. bind_inv E as selection Hsel.
  destruct selection as [records' updated]. inversion E; subst; clear E.
  exists supplier, coordinates, delivery, wa, records', updated.
  repeat split; assumption.
Qed.

(** C4.  Running the adjudication again on the state it produced, with
    the same request and the same observation, changes nothing: the second
    run returns the same state, updates no record and commits nothing.  A
    benign observation already leaves the first state untouched, and every
    record the first run updated is stored with verdict excused-weather. *)
Theorem adjudication_idempotent `{Collaborators} (db db1 : database)
    (request : WeatherImpactRequest) (resp1 : WeatherImpactResponse) :
  check_weather_impact db request = Ok (db1, resp1) ->
  (has_adverse_weather (weather_analysis resp1) = false ->
     db1 = db /\ updated_records resp1 = [])
  /\ Forall (fun r => r_status r = "excused-weather" /\ In r (compliance_records db1))
       (updated_records resp1)
  /\ exists resp2,
       check_weather_impact db1 request = Ok (db1, resp2)
       /\ updated_records resp2 = []
       /\ status_updated resp2 = false
       /\ weather_analysis resp2 = weather_analysis resp1.
Proof.
  intros E. apply check_weather_impact_Ok in E.
  destruct E as (supplier & coordinates & delivery & wa & records' & updated
                 & Hs & Hc & Hd & Ht & Hwa & Hsel & -> & ->).
  cbn [weather_analysis updated_records compliance_records].
  split; [| split].
  - intros Hb. destruct (reclassify_benign _ _ _ _ _ _ _ Hb Hsel) as [-> ->].
    split; [| reflexivity]. destruct db; reflexivity.
  - eapply reclassify_updated. exact Hsel.
  - apply reclassify_again in Hsel.
    eexists. split; [| split; [| split]].
    + unfold check_weather_impact.
      change (query_supplier
                (mkDatabase (suppliers db) records' (next_record_id db)
                   match updated with [] => commits db | _ :: _ => S (commits db) end)
                (supplier_id request))
        with (query_supplier db (supplier_id request)).
      rewrite Hs, Hc. cbn [bind]. rewrite Hd. cbn [bind]. rewrite Ht. cbn [negb].
      rewrite Hwa. cbn [bind compliance_records]. rewrite Hsel. cbn [bind fst snd].
      reflexivity.
    + reflexivity.
    + reflexivity.
    + reflexivity.
Qed.

Lemma adjudication_idempotent_witness :
  exists db1 resp1,
    @check_weather_impact (sample_collaborators sample_storm) sample_db
      (sample_weather_request None) = Ok (db1, resp1)
    /\ map r_status (compliance_records db1) = ["excused-weather"; "compliant"]
    /\ exists resp2,
         @check_weather_impact (sample_collaborators sample_storm) db1
           (sample_weather_request None) = Ok (db1, resp2)
         /\ updated_records resp2 = [].
Proof.
  eexists. eexists. split; [reflexivity |]. split; [reflexivity |].
  destruct (@adjudication_idempotent (sample_collaborators sample_storm) sample_db _
              (sample_weather_request None) _ eq_refl)
    as (_ & _ & resp2 & Hrun & Hnone & _).
  exists resp2. split; [exact Hrun | exact Hnone].
Defined.

(** An explicit record id other than 0: a record that does not belong to
    the supplier is a 404, a record with another verdict is left alone,
    and only a non-compliant record of the supplier is excused. *)
Lemma reclassify_explicit (records : list ComplianceRecordModel) (sid rid : Z)
    (delivery : date) (wa : analysis) :
  rid <> 0 ->
  let mine r := (r_id r =? rid) && (r_supplier_id r =? sid) in
  (find mine records = None ->
     reclassify records sid (Some rid) delivery wa = Raise (HTTPException 404))
  /\ (forall record,
        find mine records = Some record ->
        r_status record <> "non-compliant" ->
        reclassify records sid (Some rid) delivery wa = Ok (records, []))
  /\ (forall records' updated,
        reclassify records sid (Some rid) delivery wa = Ok (records', updated) ->
        Forall2 (fun r r' => r' = r
                             \/ (r_id r = rid /\ r_supplier_id r = sid
                                 /\ r_status r = "non-compliant" /\ r' = excuse wa r))
          records records').
Proof.
  intros Hrid mine. unfold reclassify. simpl.
  apply Z.eqb_neq in Hrid. rewrite Hrid. fold mine.
  split; [| split].
  - intros ->. reflexivity.
  - intros record -> Hst. apply String.eqb_neq in Hst. rewrite Hst, andb_false_r.
    reflexivity.
  - intros records' updated.
    destruct (find mine records) as [record |] eqn:Ef; [| discriminate].
    destruct (has_adverse_weather wa && (r_status record =? "non-compliant")%string)
      eqn:Ec; intros E; inversion E; subst; clear E.
    + eapply Forall2_impl; [| apply update_first_pointwise; exact Ef].
      intros a b [-> | [-> ->]]; [left; reflexivity | right].
      apply find_some in Ef. destruct Ef as [_ Hmine]. unfold mine in Hmine.
      apply andb_true_iff in Hmine. destruct Hmine as [Hid Hsid].
      apply andb_true_iff in Ec. destruct Ec as [_ Hst].
      apply Z.eqb_eq in Hid, Hsid. apply String.eqb_eq in Hst.
      repeat split; assumption.
    + apply Forall2_diag. intros a. left. reflexivity.
Qed.

(** C7.  With the explicit record id 0, which no record of the supplier
    carries, the adjudication does not answer 404: the test
    [if request.compliance_record_id:] takes the id for absent, the records
    of the delivery date are selected instead, and record 1 is excused. *)
Theorem record_id_zero_selects_by_date :
  find (fun r => (r_id r =? 0) && (r_supplier_id r =? 1)) (compliance_records sample_db)
  = None
  /\ map r_status (compliance_records sample_db) = ["non-compliant"; "compliant"]
  /\ exists db' resp,
       @check_weather_impact (sample_collaborators sample_storm) sample_db
         (sample_weather_request (Some 0)) = Ok (db', resp)
       /\ map r_status (compliance_records db') = ["excused-weather"; "compliant"]
       /\ map r_id (updated_records resp) = [1]
       /\ commits db' = S (commits sample_db).
Proof.
  split; [reflexivity |]. split; [reflexivity |].
  eexists. eexists. split; [reflexivity |]. repeat split.
Qed.

(** ** Where a verdict comes from *)







(** * Further properties *)

(** ** The detector, continued *)

Lemma prefix_append (k s : string) :
  prefix k s = true <-> exists post, s = (k ++ post)%string.
Proof.
  revert s. induction k as [| a k IH]; intros s.
  - split; [intros _; exists s; reflexivity | intros _; destruct s; reflexivity].
  - destruct s as [| b s]; simpl.
    + split; [discriminate | intros [post Hp]; discriminate Hp].
    + destruct (ascii_dec a b) as [-> | Hneq].
      * rewrite IH. split; intros [post Hp]; exists post.
        -- rewrite Hp. reflexivity.
        -- inversion Hp. reflexivity.
      * split; [discriminate |].
        intros [post Hp]. inversion Hp. congruence.
Qed.

(** [contains] is the substring test. *)
Lemma contains_substring (k s : string) :
  contains k s = true <-> exists pre post, s = (pre ++ k ++ post)%string.
Proof.
  induction s as [| b s IH]; cbn [contains].
  - rewrite orb_false_r, prefix_append. split.
    + intros [post Hp]. exists "", post. exact Hp.
    + intros (pre & post & Hp). destruct pre; [| discriminate Hp].
      exists post. exact Hp.
  - rewrite orb_true_iff, prefix_append, IH. split.
    + intros [[post Hp] | (pre & post & Hp)].
      * exists "", post. exact Hp.
      * exists (String b pre), post. rewrite Hp. reflexivity.
    + intros (pre & post & Hp). destruct pre as [| c pre].
      * left. exists post. exact Hp.
      * right. inversion Hp. exists pre, post. reflexivity.
Qed.

Lemma contains_inside (a b s : string) :
  contains a b = true -> contains b s = true -> contains a s = true.
Proof.
  rewrite !contains_substring.
  intros (pre & post & ->) (pre' & post' & ->).
  exists (pre' ++ pre)%string, (post ++ post')%string.
  rewrite !append_assoc. reflexivity.
Qed.

Lemma filter_hit (P : condition -> bool) (b : bool) (c : condition) :
  filter P (if b then [c] else []) = if b && P c then [c] else [].
Proof.
  destruct b; simpl; [destruct (P c); reflexivity | reflexivity].
Qed.

(** X1.  In a completed analysis the flag, the findings, the severity and
    the justification agree: the flag is set exactly when there is a
    finding, it is unset exactly when the severity is none, an unset flag
    comes with one of the two fixed sentences and a set flag with a
    sentence that justifies the delay. *)
Theorem adverse_flag_agrees `{Collaborators} (weather_data : json) (a : analysis) :
  analyze_adverse_weather weather_data = Ok a ->
  (has_adverse_weather a = true <-> conditions a <> [])
  /\ (has_adverse_weather a = false <-> severity a = "none")
  /\ (has_adverse_weather a = false ->
        justification a = "No weather data available"
        \/ justification a
           = "No adverse weather conditions detected that would impact delivery.")
  /\ (has_adverse_weather a = true ->
        prefix "Delivery delay justified due to " (justification a) = true).
Proof.
  intros Ha. apply analyze_adverse_weather_Ok in Ha.
  destruct Ha as [[-> _] | Ha].
  { simpl. repeat split; try discriminate; auto; try (intros Hne; contradiction). }
  destruct Ha as (kvs & info & rest & w0 & d & m & wind_n & rain_part & snow_part
                  & _ & _ & _ & _ & _ & _ & _ & _ & Ha).
  cbv zeta in Ha.
  match type of Ha with
  | a = mkAnalysis _ ?f _ _ _ => remember f as found eqn:Hfound
  end.
  clear Hfound. subst a. cbn [has_adverse_weather conditions severity justification].
  destruct found as [| c found].
  - simpl. repeat split; try discriminate; auto; try (intros Hne; contradiction).
  - assert (Hsev : (if existsb (fun keyword => contains keyword (lower d)) severity_keywords
                    then "high"
                    else if (1 <? List.length (c :: found))%nat then "medium" else "low")
                   <> "none").
    { destruct (existsb _ severity_keywords); [discriminate |].
      destruct (1 <? List.length (c :: found))%nat; discriminate. }
    change (0 <? List.length (c :: found))%nat with true. cbv iota.
    repeat split; try discriminate; try reflexivity.
    + intros Hs. contradiction.
    + intros _. unfold _generate_justification.
      destruct (List.length (map condition_description (c :: found)) =? 1)%nat;
        reflexivity.
Qed.

Lemma adverse_flag_agrees_witness :
  @analyze_adverse_weather (sample_collaborators sample_storm) sample_storm
  = Ok (mkAnalysis true
          [mkCondition "heavy_rain" "Heavy rainfall: 15mm" None (Some (NInt 15))]
          "low"
          "Delivery delay justified due to adverse weather: Heavy rainfall: 15mm. Weather conditions: light rain."
          (Some (mkEcho "light rain" (JInt 18) (JInt 4) (JBool false))))
  /\ prefix "Delivery delay justified due to "
       "Delivery delay justified due to adverse weather: Heavy rainfall: 15mm. Weather conditions: light rain."
     = true.
Proof.
  split; [reflexivity |].
  exact (proj2 (proj2 (proj2
           (@adverse_flag_agrees (sample_collaborators sample_storm) sample_storm _ eq_refl)))
           eq_refl).
Defined.

(** The completed analysis of a document whose first sample is [info]. *)
Lemma analyze_sample_Ok `{Collaborators} (kvs info : list (string * json))
    (rest : list json) (a : analysis) :
  lookup "data" kvs = Some (JList (JObj info :: rest)) ->
  analyze_adverse_weather (JObj kvs) = Ok a ->
  exists w0 d m wind_n rain_part snow_part,
    py_getitem0 (field info "weather" (JList [JObj []])) = Ok (JObj w0)
    /\ field w0 "description" (JStr "") = JStr d
    /\ field w0 "main" (JStr "") = JStr m
    /\ py_number (field info "wind_speed" (JInt 0)) = Ok wind_n
    /\ ((truthy (field info "rain" (JObj [])) = false /\ rain_part = [])
        \/ exists p n,
             field info "rain" (JObj []) = JObj p /\ p <> []
             /\ py_number (chosen_amount p) = Ok n
             /\ rain_part = threshold_part "heavy_rain" "Heavy rainfall: " "mm" 10 n)
    /\ ((truthy (field info "snow" (JObj [])) = false /\ snow_part = [])
        \/ exists p n,
             field info "snow" (JObj []) = JObj p /\ p <> []
             /\ py_number (chosen_amount p) = Ok n
             /\ snow_part = threshold_part "snow" "Snowfall: " "mm" 0 n)
    /\ conditions a
       = (((keyword_hits (lower d) (lower m) ++ rain_part) ++ snow_part)
            ++ threshold_part "strong_wind" "Strong winds: " " m/s" 15 wind_n)%list
    /\ severity a = severity_rule (conditions a) (lower d)
    /\ echo a = Some (mkEcho (lower d) (field info "temp" JNull)
                        (field info "wind_speed" (JInt 0))
                        (field kvs "mock" (JBool false))).
Proof.
  intros Hdata Ha.
  apply analyze_adverse_weather_Ok in Ha. destruct Ha as [[_ Hno] | Ha].
  { exfalso. destruct Hno as [Hno | Hno].
    - destruct kvs; [discriminate Hdata | discriminate Hno].
    - simpl in Hno. rewrite Hdata in Hno. discriminate Hno. }
  destruct Ha as (kvs' & info' & rest' & w0 & d & m & wind_n & rain_part & snow_part
                  & Hk & Hdata' & Hw0 & Hd & Hm & Hwind & Hrain & Hsnow & Ha).
  inversion Hk; subst kvs'; clear Hk.
  rewrite Hdata in Hdata'. inversion Hdata'; subst info' rest'; clear Hdata'.
  cbv zeta in Ha. subst a. cbn [conditions severity echo].
  exists w0, d, m, wind_n, rain_part, snow_part.
  repeat split; try assumption; try reflexivity.
  apply severity_rule_agrees.
Qed.

(** X2.  The wind speed of the sample, 0 when the key is absent, gives
    the strong-wind finding, with the speed as measurement, exactly when it
    exceeds 15; the analysis echoes the speed as it read it. *)
Theorem wind_threshold `{Collaborators} (kvs info : list (string * json))
    (rest : list json) (a : analysis) :
  lookup "data" kvs = Some (JList (JObj info :: rest)) ->
  analyze_adverse_weather (JObj kvs) = Ok a ->
  exists n,
    py_number (field info "wind_speed" (JInt 0)) = Ok n
    /\ option_map wind_speed (echo a) = Some (field info "wind_speed" (JInt 0))
    /\ ((15 < number_value n)%Q ->
          filter (is_threshold_hit "strong_wind") (conditions a)
          = [mkCondition "strong_wind" ("Strong winds: " ++ number_str n ++ " m/s")
               None (Some n)])
    /\ ((number_value n <= 15)%Q ->
          filter (is_threshold_hit "strong_wind") (conditions a) = []).
Proof.
  intros Hdata Ha.
  destruct (analyze_sample_Ok _ _ _ _ Hdata Ha)
    as (w0 & d & m & wind_n & rain_part & snow_part
        & _ & _ & _ & Hwind & Hrain & Hsnow & -> & _ & ->).
  exists wind_n. split; [exact Hwind |]. split; [reflexivity |].
  assert (Hf : filter (is_threshold_hit "strong_wind")
                 (((keyword_hits (lower d) (lower m) ++ rain_part) ++ snow_part)
                    ++ threshold_part "strong_wind" "Strong winds: " " m/s" 15 wind_n)
               = threshold_part "strong_wind" "Strong winds: " " m/s" 15 wind_n).
  { rewrite !filter_app, filter_keyword_hits, filter_threshold_part_same.
    destruct Hrain as [[_ ->] | (p & n & _ & _ & _ & ->)];
      destruct Hsnow as [[_ ->] | (p' & n' & _ & _ & _ & ->)];
      rewrite ?(filter_threshold_part_other "strong_wind" "heavy_rain") by discriminate;
      rewrite ?(filter_threshold_part_other "strong_wind" "snow") by discriminate;
      reflexivity. }
  rewrite Hf. unfold threshold_part. split; intros Hcmp.
  - apply (proj2 (gt_int_spec wind_n 15)) in Hcmp. rewrite Hcmp. reflexivity.
  - destruct (gt_int wind_n 15) eqn:E; [| reflexivity].
    apply gt_int_spec in E. q_arith.
Qed.

Lemma wind_threshold_witness :
  exists a,
    @analyze_adverse_weather (sample_collaborators sample_storm)
      (JObj [("data", JList [JObj [("wind_speed", JInt 20)]])]) = Ok a
    /\ filter (is_threshold_hit "strong_wind") (conditions a)
       = [mkCondition "strong_wind" "Strong winds: 20 m/s" None (Some (NInt 20))].
Proof.
  eexists. split; [reflexivity |].
  match goal with
  | |- filter _ (conditions ?a) = _ =>
      destruct (@wind_threshold (sample_collaborators sample_storm)
                  [("data", JList [JObj [("wind_speed", JInt 20)]])]
                  [("wind_speed", JInt 20)] [] a eq_refl eq_refl)
        as (n & Hn & _ & Hgt & _)
  end.
  inversion Hn; subst n. apply Hgt. reflexivity.
Defined.

(** X3.  Only the first sample of the array is read: a document gives
    the result of the document that holds this sample alone, with the same
    [mock] flag. *)
Theorem only_first_sample `{Collaborators} (kvs : list (string * json))
    (sample : json) (rest : list json) :
  lookup "data" kvs = Some (JList (sample :: rest)) ->
  analyze_adverse_weather (JObj kvs)
  = analyze_adverse_weather
      (JObj [("data", JList [sample]); ("mock", field kvs "mock" (JBool false))]).
Proof.
  intros Hdata. unfold analyze_adverse_weather.
  assert (Ht : truthy (JObj kvs) = true) by (destruct kvs; [discriminate Hdata | reflexivity]).
  rewrite Ht. unfold py_in, py_getitem. rewrite Hdata.
  reflexivity.
Qed.

Lemma only_first_sample_witness :
  lookup "data" [("data", JList [JObj [("wind_speed", JInt 20)]; JStr "ignored"])]
  = Some (JList [JObj [("wind_speed", JInt 20)]; JStr "ignored"])
  /\ @analyze_adverse_weather (sample_collaborators sample_storm)
       (JObj [("data", JList [JObj [("wind_speed", JInt 20)]; JStr "ignored"])])
     = @analyze_adverse_weather (sample_collaborators sample_storm)
         (JObj [("data", JList [JObj [("wind_speed", JInt 20)]]);
                ("mock", JBool false)]).
Proof.
  split; [reflexivity |].
  exact (@only_first_sample (sample_collaborators sample_storm)
           [("data", JList [JObj [("wind_speed", JInt 20)]; JStr "ignored"])]
           (JObj [("wind_speed", JInt 20)]) [JStr "ignored"] eq_refl).
Defined.

(** X4.  On a document whose first sample is a map, the analysis
    completes exactly when the sample has the expected shape: the first
    weather entry is a map whose description and main category, when
    present, are strings; the wind speed, when present, is a number; and
    each precipitation field is falsy or a map whose chosen amount is a
    number.  On every other sample it raises. *)
Theorem analysis_completes_iff `{Collaborators} (kvs info : list (string * json))
    (rest : list json) :
  lookup "data" kvs = Some (JList (JObj info :: rest)) ->
  (exists a, analyze_adverse_weather (JObj kvs) = Ok a)
  <-> (exists w0 d m n,
         py_getitem0 (field info "weather" (JList [JObj []])) = Ok (JObj w0)
         /\ field w0 "description" (JStr "") = JStr d
         /\ field w0 "main" (JStr "") = JStr m
         /\ py_number (field info "wind_speed" (JInt 0)) = Ok n)
      /\ (truthy (field info "rain" (JObj [])) = false
          \/ exists p n, field info "rain" (JObj []) = JObj p
                         /\ py_number (chosen_amount p) = Ok n)
      /\ (truthy (field info "snow" (JObj [])) = false
          \/ exists p n, field info "snow" (JObj []) = JObj p
                         /\ py_number (chosen_amount p) = Ok n).
Proof.
  intros Hdata. split.
  - intros [a Ha].
    destruct (analyze_sample_Ok _ _ _ _ Hdata Ha)
      as (w0 & d & m & wind_n & rain_part & snow_part
          & Hw0 & Hd & Hm & Hwind & Hrain & Hsnow & _).
    split; [exists w0, d, m, wind_n; repeat split; assumption |].
    split.
    + destruct Hrain as [[Hf _] | (p & n & Hp & _ & Hn & _)];
        [left; exact Hf | right; exists p, n; split; assumption].
    + destruct Hsnow as [[Hf _] | (p & n & Hp & _ & Hn & _)];
        [left; exact Hf | right; exists p, n; split; assumption].
  - intros [(w0 & d & m & n & Hw0 & Hd & Hm & Hwind) [Hrain Hsnow]].
    eapply analyze_adverse_weather_completes; eassumption.
Qed.

Lemma analysis_completes_iff_witness :
  lookup "data" [("data", JList [JObj [("wind_speed", JStr "strong")]])]
  = Some (JList [JObj [("wind_speed", JStr "strong")]])
  /\ ~ exists a,
         @analyze_adverse_weather (sample_collaborators sample_storm)
           (JObj [("data", JList [JObj [("wind_speed", JStr "strong")]])]) = Ok a.
Proof.
  split; [reflexivity |].
  intros Hex.
  apply (@analysis_completes_iff (sample_collaborators sample_storm)
           [("data", JList [JObj [("wind_speed", JStr "strong")]])]
           [("wind_speed", JStr "strong")] [] eq_refl) in Hex.
  destruct Hex as [(w0 & d & m & n & _ & _ & _ & Hn) _].
  discriminate Hn.
Defined.

Lemma keyword_hits_shape (weather_desc weather_main : string) (c : condition) :
  In c (keyword_hits weather_desc weather_main) ->
  In (c_type c) ["thunderstorm"; "heavy_rain"; "snow"; "fog"; "extreme_weather"]
  /\ c_description c = weather_desc
  /\ c_main c = Some weather_main
  /\ c_measurement c = None.
Proof.
  unfold keyword_hits. intros Hc.
  apply in_flat_map in Hc. destruct Hc as ((condition_type & keywords) & Hentry & Hc).
  apply in_flat_map in Hc. destruct Hc as (keyword & _ & Hc).
  destruct (contains keyword weather_desc || contains keyword weather_main);
    [| destruct Hc].
  destruct Hc as [<- | []]. cbn [c_type c_description c_main c_measurement].
  repeat split.
  unfold adverse_conditions in Hentry. simpl in Hentry.
  repeat (destruct Hentry as [Hentry | Hentry];
          [inversion Hentry; subst; simpl; tauto |]).
  destruct Hentry.
Qed.

Lemma threshold_part_shape `{Collaborators} (category label unit : string) (k : Z)
    (n : number) (c : condition) :
  In c (threshold_part category label unit k n) ->
  c_type c = category /\ c_measurement c = Some n /\ c_main c = None
  /\ (inject_Z k < number_value n)%Q.
Proof.
  unfold threshold_part. destruct (gt_int n k) eqn:E; [| intros []].
  intros [<- | []]. apply gt_int_spec in E. repeat split. exact E.
Qed.

(** X5.  Every finding of a completed analysis is either a keyword
    finding, of one of the five keyword categories, with the lower-cased
    description as its text and no measurement, or a threshold finding for
    heavy rain, snow or strong wind whose measurement exceeds the threshold
    of its category (10, 0 and 15). *)
Theorem findings_are_well_formed `{Collaborators} (weather_data : json) (a : analysis) :
  analyze_adverse_weather weather_data = Ok a ->
  Forall
    (fun c =>
       (In (c_type c) ["thunderstorm"; "heavy_rain"; "snow"; "fog"; "extreme_weather"]
        /\ c_measurement c = None
        /\ c_main c <> None
        /\ Some (c_description c) = option_map weather_description (echo a))
       \/ exists n,
            c_measurement c = Some n /\ c_main c = None
            /\ ((c_type c = "heavy_rain" /\ (10 < number_value n)%Q)
                \/ (c_type c = "snow" /\ (0 < number_value n)%Q)
                \/ (c_type c = "strong_wind" /\ (15 < number_value n)%Q)))
    (conditions a).
Proof.
  intros Ha. apply analyze_adverse_weather_Ok in Ha.
  destruct Ha as [[-> _] | Ha]; [constructor |].
  destruct Ha as (kvs & info & rest & w0 & d & m & wind_n & rain_part & snow_part
                  & _ & _ & _ & _ & _ & _ & Hrain & Hsnow & Ha).
  cbv zeta in Ha. subst a. cbn [conditions echo option_map weather_description].
  apply Forall_forall. intros c Hc.
  apply in_app_or in Hc. destruct Hc as [Hc | Hc].
  2:{ right. apply threshold_part_shape in Hc. destruct Hc as (Ht & Hm & Hmain & Hgt).
      exists wind_n. repeat split; try assumption. right. right. split; assumption. }
  apply in_app_or in Hc. destruct Hc as [Hc | Hc].
  2:{ destruct Hsnow as [[_ ->] | (p & n & _ & _ & _ & ->)]; [destruct Hc |].
      right. apply threshold_part_shape in Hc. destruct Hc as (Ht & Hm & Hmain & Hgt).
      exists n. repeat split; try assumption. right. left. split; assumption. }
  apply in_app_or in Hc. destruct Hc as [Hc | Hc].
  2:{ destruct Hrain as [[_ ->] | (p & n & _ & _ & _ & ->)]; [destruct Hc |].
      right. apply threshold_part_shape in Hc. destruct Hc as (Ht & Hm & Hmain & Hgt).
      exists n. repeat split; try assumption. left. split; assumption. }
  left. apply keyword_hits_shape in Hc. destruct Hc as (Ht & Hd & Hmain & Hm).
  repeat split; try assumption.
  - rewrite Hmain. discriminate.
  - rewrite Hd. reflexivity.
Qed.

Lemma findings_are_well_formed_witness :
  @analyze_adverse_weather (sample_collaborators sample_storm) sample_storm
  = Ok (mkAnalysis true
          [mkCondition "heavy_rain" "Heavy rainfall: 15mm" None (Some (NInt 15))]
          "low"
          "Delivery delay justified due to adverse weather: Heavy rainfall: 15mm. Weather conditions: light rain."
          (Some (mkEcho "light rain" (JInt 18) (JInt 4) (JBool false))))
  /\ exists n, Some (NInt 15) = Some n /\ (10 < number_value n)%Q.
Proof.
  split; [reflexivity |].
  pose proof (@findings_are_well_formed (sample_collaborators sample_storm)
                sample_storm _ eq_refl) as Hall.
  inversion Hall as [| c l Hc _]; subst.
  destruct Hc as [(_ & Hnone & _) | (n & Hn & _ & [[_ Hgt] | [[Ht _] | [Ht _]]])].
  - discriminate Hnone.
  - exists n. split; [exact Hn | exact Hgt].
  - discriminate Ht.
  - discriminate Ht.
Defined.

Lemma filter_type_threshold_part `{Collaborators} (wanted category label unit : string)
    (k : Z) (n : number) :
  category <> wanted ->
  filter (fun c => (c_type c =? wanted)%string) (threshold_part category label unit k n)
  = [].
Proof.
  intros Hneq. unfold threshold_part. destruct (gt_int n k); [| reflexivity].
  simpl. apply String.eqb_neq in Hneq. rewrite Hneq. reflexivity.
Qed.

(** X6.  A description that mentions a thunderstorm matches both
    keywords of the category, "thunderstorm" and "storm": the analysis has
    exactly two thunderstorm findings and its severity is high, so a
    thunderstorm is never rated low or medium. *)
Theorem thunderstorm_counts_twice `{Collaborators} (weather_data : json) (a : analysis)
    (e : observation_echo) :
  analyze_adverse_weather weather_data = Ok a ->
  echo a = Some e ->
  contains "thunderstorm" (weather_description e) = true ->
  List.length (filter (fun c => (c_type c =? "thunderstorm")%string) (conditions a))
  = 2%nat
  /\ severity a = "high".
Proof.
  intros Ha He Hth. apply analyze_adverse_weather_Ok in Ha.
  destruct Ha as [[-> _] | Ha]; [discriminate He |].
  destruct Ha as (kvs & info & rest & w0 & d & m & wind_n & rain_part & snow_part
                  & _ & _ & _ & _ & _ & _ & Hrain & Hsnow & Ha).
  cbv zeta in Ha. subst a. cbn [echo] in He. inversion He; subst e; clear He.
  cbn [weather_description] in Hth. cbn [conditions severity].
  assert (Hstorm : contains "storm" (lower d) = true).
  { eapply contains_inside; [| exact Hth]. reflexivity. }
  assert (Hcount :
    List.length
      (filter (fun c => (c_type c =? "thunderstorm")%string)
         (((keyword_hits (lower d) (lower m) ++ rain_part) ++ snow_part)
            ++ threshold_part "strong_wind" "Strong winds: " " m/s" 15 wind_n))
    = 2%nat).
  { rewrite !filter_app.
    rewrite (filter_type_threshold_part "thunderstorm" "strong_wind") by discriminate.
    assert (Hr : filter (fun c => (c_type c =? "thunderstorm")%string) rain_part = []).
    { destruct Hrain as [[_ ->] | (p & n & _ & _ & _ & ->)]; [reflexivity |].
      apply filter_type_threshold_part. discriminate. }
    assert (Hs : filter (fun c => (c_type c =? "thunderstorm")%string) snow_part = []).
    { destruct Hsnow as [[_ ->] | (p & n & _ & _ & _ & ->)]; [reflexivity |].
      apply filter_type_threshold_part. discriminate. }
    rewrite Hr, Hs, !app_nil_r.
    unfold keyword_hits, adverse_conditions. cbn [flat_map].
    rewrite !filter_app, !filter_hit. cbn [c_type String.eqb Ascii.eqb Bool.eqb filter].
    rewrite Hth, Hstorm. cbn [orb andb].
    rewrite !andb_false_r. reflexivity. }
  split; [exact Hcount |].
  match goal with
  | |- (if (0 <? List.length ?f)%nat then _ else _) = _ => remember f as found
  end.
  assert (Hlen : (0 <? List.length found)%nat = true).
  { destruct found as [| c found]; [| reflexivity].
    simpl in Hcount. discriminate Hcount. }
  rewrite Hlen. unfold severity_keywords. cbn [existsb]. rewrite Hth.
  rewrite !orb_true_r. reflexivity.
Qed.

Lemma thunderstorm_counts_twice_witness :
  exists a e,
    @analyze_adverse_weather (sample_collaborators sample_storm)
      (JObj [("data", JList [JObj [("weather",
                JList [JObj [("main", JStr "Thunderstorm");
                             ("description", JStr "Thunderstorm with light rain")]])]])])
    = Ok a
    /\ echo a = Some e
    /\ contains "thunderstorm" (weather_description e) = true
    /\ severity a = "high".
Proof.
  eexists. eexists. split; [reflexivity |]. split; [reflexivity |].
  split; [reflexivity |].
  exact (proj2 (@thunderstorm_counts_twice (sample_collaborators sample_storm)
                  (JObj [("data", JList [JObj [("weather",
                            JList [JObj [("main", JStr "Thunderstorm");
                                         ("description",
                                          JStr "Thunderstorm with light rain")]])]])])
                  _ _ eq_refl eq_refl eq_refl)).
Defined.

(** ** Ingestion, continued *)



Lemma stage_records_fields (sid next : Z) (batch : list ComplianceRecordBase) (ai : json) :
  Forall2
    (fun record_data r =>
       r_supplier_id r = sid
       /\ r_metric r = metric record_data
       /\ r_date_recorded r = date_recorded record_data
       /\ r_result r = result record_data
       /\ r_expected_value r = expected_value record_data
       /\ r_status r = status_value record_data
       /\ r_ai_analysis r = Some ai
       /\ r_weather_data r = None
       /\ r_weather_justification r = None)
    batch (map (set_ai_analysis ai) (stage_records sid next batch)).
Proof.
  revert next. induction batch as [| record_data rest IH]; intros next; simpl.
  - constructor.
  - constructor; [repeat split | apply IH].
Qed.

Lemma update_first_others {A : Type} (p : A -> bool) (f : A -> A) (l : list A) (x : A) :
  In x l -> p x = false -> In x (update_first p f l).
Proof.
  induction l as [| y l IH]; simpl; intros Hin Hp; [contradiction |].
  destruct Hin as [-> | Hin].
  - rewrite Hp. left. reflexivity.
  - destruct (p y); right; [exact Hin | apply IH; assumption].
Qed.

Lemma update_first_length {A : Type} (p : A -> bool) (f : A -> A) (l : list A) :
  List.length (update_first p f l) = List.length l.
Proof.
  induction l as [| y l IH]; simpl; [reflexivity |].
  destruct (p y); simpl; [reflexivity | rewrite IH; reflexivity].
Qed.

(** X8.  A completed ingestion appends one record per item of the batch,
    in order, after the records it found, which it keeps as they are; each
    new record belongs to the supplier of the request, copies metric, date,
    result and expected value of its item, shares the advisory document of
    the batch and has no weather data.  Every other supplier is kept as it
    is, and the transaction is committed once. *)
Theorem ingestion_frame (db db' : database) (request : ComplianceCheckRequest)
    (ai : json) (resp : ComplianceCheckResponse) :
  check_compliance db request ai = Ok (db', resp) ->
  compliance_records db'
  = (compliance_records db ++ resp_compliance_records resp)%list
  /\ Forall2
       (fun record_data r =>
          r_supplier_id r = check_supplier_id request
          /\ r_metric r = metric record_data
          /\ r_date_recorded r = date_recorded record_data
          /\ r_result r = result record_data
          /\ r_expected_value r = expected_value record_data
          /\ r_status r = status_value record_data
          /\ r_ai_analysis r = Some ai
          /\ r_weather_data r = None
          /\ r_weather_justification r = None)
       (compliance_data request) (resp_compliance_records resp)
  /\ List.length (suppliers db') = List.length (suppliers db)
  /\ (forall s, In s (suppliers db) -> s_id s <> check_supplier_id request ->
                In s (suppliers db'))
  /\ resp_ai_analysis resp = ai
  /\ commits db' = S (commits db).
Proof.
  intros Hok. apply check_compliance_Ok in Hok.
  destruct Hok as (supplier & kvs & n1 & n2 & stored & _ & -> & Hok).
  cbv zeta in Hok. destruct Hok as (_ & _ & _ & -> & ->).
  cbn [compliance_records resp_compliance_records suppliers resp_ai_analysis commits].
  split; [reflexivity |]. split; [apply stage_records_fields |].
  split; [apply update_first_length |]. split; [| split; reflexivity].
  intros s Hin Hneq. apply update_first_others; [exact Hin |].
  apply Z.eqb_neq. exact Hneq.
Qed.

Lemma ingestion_frame_witness :
  exists db' resp,
    check_compliance sample_db (mkCheckRequest 1 sample_batch) (sample_opinion (JInt 90))
    = Ok (db', resp)
    /\ List.length (compliance_records db') = 6%nat
    /\ commits db' = 1%nat.
Proof.
  eexists. eexists. split; [reflexivity |].
  destruct (ingestion_frame sample_db _ (mkCheckRequest 1 sample_batch)
              (sample_opinion (JInt 90)) _ eq_refl) as (Hrecords & _ & _ & _ & _ & Hc).
  split; [rewrite Hrecords; reflexivity | exact Hc].
Defined.



(** ** Weather adjudication, continued *)

Lemma date_eqb_eq (a b : date) : date_eqb a b = true <-> a = b.
Proof.
  unfold date_eqb. rewrite !andb_true_iff, !Z.eqb_eq.
  destruct a, b; simpl. split.
  - intros [[-> ->] ->]. reflexivity.
  - intros E. inversion E. auto.
Qed.

Lemma excuse_fields (wa : analysis) (r : ComplianceRecordModel) :
  r_id (excuse wa r) = r_id r
  /\ r_supplier_id (excuse wa r) = r_supplier_id r
  /\ r_metric (excuse wa r) = r_metric r
  /\ r_date_recorded (excuse wa r) = r_date_recorded r
  /\ r_result (excuse wa r) = r_result r
  /\ r_expected_value (excuse wa r) = r_expected_value r
  /\ r_ai_analysis (excuse wa r) = r_ai_analysis r.
Proof. repeat split. Qed.

(** X10.  A completed adjudication leaves the suppliers, their scores
    included, and the number and order of the records as they were.  Of a
    record it changes at most the verdict, the weather data and the
    justification, and only for a record of the requested supplier whose
    verdict was non-compliant: the verdict becomes excused-weather and the
    record receives the analysis and the justification of the response. *)
Theorem adjudication_frame `{Collaborators} (db db' : database)
    (request : WeatherImpactRequest) (resp : WeatherImpactResponse) :
  check_weather_impact db request = Ok (db', resp) ->
  suppliers db' = suppliers db
  /\ next_record_id db' = next_record_id db
  /\ w_justification resp = justification (weather_analysis resp)
  /\ Forall2
       (fun r r' =>
          r_id r' = r_id r
          /\ r_supplier_id r' = r_supplier_id r
          /\ r_metric r' = r_metric r
          /\ r_date_recorded r' = r_date_recorded r
          /\ r_result r' = r_result r
          /\ r_expected_value r' = r_expected_value r
          /\ r_ai_analysis r' = r_ai_analysis r
          /\ (r' = r
              \/ (r_supplier_id r = supplier_id request
                  /\ r_status r = "non-compliant"
                  /\ has_adverse_weather (weather_analysis resp) = true
                  /\ r_status r' = "excused-weather"
                  /\ r_weather_data r' = Some (weather_analysis resp)
                  /\ r_weather_justification r' = Some (w_justification resp))))
       (compliance_records db) (compliance_records db').
Proof.
  intros E. apply check_weather_impact_Ok in E.
  destruct E as (supplier & coordinates & delivery & wa & records' & updated
                 & _ & _ & _ & _ & _ & Hsel & -> & ->).
  cbn [suppliers next_record_id compliance_records weather_analysis w_justification].
  repeat split.
  eapply Forall2_impl; [| apply (reclassify_pointwise _ _ _ _ _ _ _ Hsel)].
  intros r r' [-> | (Hadv & Hsid & Hst & ->)].
  - repeat split. left. reflexivity.
  - repeat split. right. repeat split; assumption.
Qed.

Lemma adjudication_frame_witness :
  exists db' resp,
    @check_weather_impact (sample_collaborators sample_storm) sample_db
      (sample_weather_request (Some 1)) = Ok (db', resp)
    /\ suppliers db' = suppliers sample_db.
Proof.
  eexists. eexists. split; [reflexivity |].
  exact (proj1 (@adjudication_frame (sample_collaborators sample_storm) sample_db _
                  (sample_weather_request (Some 1)) _ eq_refl)).
Defined.

Lemma map_unselected {A : Type} (p : A -> bool) (f : A -> A) (l : list A) :
  filter p l = [] -> map (fun x => if p x then f x else x) l = l.
Proof.
  induction l as [| x l IH]; simpl; [reflexivity |].
  destruct (p x); [discriminate |]. intros Hf. rewrite IH by exact Hf. reflexivity.
Qed.

Lemma reclassify_nothing (records records' : list ComplianceRecordModel) (sid : Z)
    (rid : option Z) (delivery : date) (wa : analysis) :
  reclassify records sid rid delivery wa = Ok (records', []) -> records' = records.
Proof.
  unfold reclassify.
  destruct (record_id_given rid) as [i |].
  - destruct (find _ records) as [record |]; [| discriminate].
    destruct (has_adverse_weather wa && (r_status record =? "non-compliant")%string);
      intros E; inversion E; reflexivity.
  - destruct (has_adverse_weather wa); intros E; inversion E; [| reflexivity].
    apply map_unselected.
    match goal with
    | Hm : map _ ?l = [] |- ?l = [] => destruct l; [reflexivity | discriminate Hm]
    end.
Qed.

Lemma reclassify_something (records records' updated : list ComplianceRecordModel)
    (sid : Z) (rid : option Z) (delivery : date) (wa : analysis) :
  reclassify records sid rid delivery wa = Ok (records', updated) ->
  updated <> [] ->
  has_adverse_weather wa = true
  /\ exists r, In r records /\ r_supplier_id r = sid /\ r_status r = "non-compliant"
               /\ In (excuse wa r) records' /\ In (excuse wa r) updated.
Proof.
  unfold reclassify.
  destruct (record_id_given rid) as [i |].
  - destruct (find _ records) as [record |] eqn:Ef; [| discriminate].
    destruct (has_adverse_weather wa) eqn:Ea; simpl;
      [destruct (r_status record =? "non-compliant")%string eqn:Ec |];
      intros E Hne; inversion E; subst; try contradiction.
    split; [reflexivity |]. exists record.
    pose proof (in_update_first _ (excuse wa) _ _ Ef) as Hin.
    apply find_some in Ef. destruct Ef as [Hr Hmine].
    apply andb_true_iff in Hmine. destruct Hmine as [_ Hsid].
    apply Z.eqb_eq in Hsid. apply String.eqb_eq in Ec.
    repeat split; try assumption. left. reflexivity.
  - destruct (has_adverse_weather wa) eqn:Ea; intros E Hne; inversion E; subst;
      [| contradiction].
    split; [reflexivity |].
    destruct (filter _ records) as [| r selected] eqn:Ef; [contradiction |].
    assert (Hr : In r (filter
                         (fun r => (r_supplier_id r =? sid)
                                   && date_eqb (r_date_recorded r) delivery
                                   && (r_status r =? "non-compliant")%string) records)).
    { rewrite Ef. left. reflexivity. }
    apply filter_In in Hr. destruct Hr as [Hin Hsel].
    exists r. pose proof Hsel as Hsel'.
    apply andb_true_iff in Hsel. destruct Hsel as [Hsel Hst].
    apply andb_true_iff in Hsel. destruct Hsel as [Hsid _].
    apply Z.eqb_eq in Hsid. apply String.eqb_eq in Hst.
    repeat split; try assumption.
    + apply in_map_iff. exists r. rewrite Hsel'. split; [reflexivity | exact Hin].
    + left. reflexivity.
Qed.

(** X11.  The flag [status_updated] tells whether the store was written:
    when it is false the store is exactly as before, no transaction is
    committed and no record is reported; when it is true one transaction
    was committed, the weather was adverse, and some record of the supplier
    that was non-compliant is now stored, and reported, in its excused
    form. *)
Theorem status_updated_tells_the_write `{Collaborators} (db db' : database)
    (request : WeatherImpactRequest) (resp : WeatherImpactResponse) :
  check_weather_impact db request = Ok (db', resp) ->
  (status_updated resp = false -> db' = db /\ updated_records resp = [])
  /\ (status_updated resp = true ->
        commits db' = S (commits db)
        /\ has_adverse_weather (weather_analysis resp) = true
        /\ exists r,
             In r (compliance_records db)
             /\ r_supplier_id r = supplier_id request
             /\ r_status r = "non-compliant"
             /\ In (excuse (weather_analysis resp) r) (compliance_records db')
             /\ In (excuse (weather_analysis resp) r) (updated_records resp)).
Proof.
  intros E. apply check_weather_impact_Ok in E.
  destruct E as (supplier & coordinates & delivery & wa & records' & updated
                 & _ & _ & _ & _ & _ & Hsel & -> & ->).
  cbn [status_updated updated_records weather_analysis compliance_records commits].
  split.
  - intros Hflag. destruct updated as [| u updated]; [| discriminate Hflag].
    apply reclassify_nothing in Hsel. subst records'.
    split; [destruct db; reflexivity | reflexivity].
  - intros Hflag. destruct updated as [| u updated]; [discriminate Hflag |].
    split; [reflexivity |].
    apply (reclassify_something _ _ _ _ _ _ _ Hsel). discriminate.
Qed.

Lemma status_updated_tells_the_write_witness :
  exists db' resp,
    @check_weather_impact (sample_collaborators _mock_weather_data) sample_db
      (sample_weather_request None) = Ok (db', resp)
    /\ status_updated resp = false
    /\ db' = sample_db.
Proof.
  eexists. eexists. split; [reflexivity |]. split; [reflexivity |].
  exact (proj1 (proj1 (@status_updated_tells_the_write
                         (sample_collaborators _mock_weather_data) sample_db _
                         (sample_weather_request None) _ eq_refl) eq_refl)).
Defined.

(** X12.  Without a record id (or with the id 0), a completed
    adjudication under adverse weather excuses every record of the supplier
    that is dated on the delivery date and non-compliant: afterwards the
    store holds no such record, each of them is reported in its excused
    form, and nothing else is reported. *)
Theorem date_selection_excuses_all `{Collaborators} (db db' : database)
    (request : WeatherImpactRequest) (resp : WeatherImpactResponse) (delivery : date) :
  check_weather_impact db request = Ok (db', resp) ->
  record_id_given (compliance_record_id request) = None ->
  strptime_date (delivery_date request) = Some delivery ->
  has_adverse_weather (weather_analysis resp) = true ->
  let selected r :=
    r_supplier_id r = supplier_id request
    /\ r_date_recorded r = delivery
    /\ r_status r = "non-compliant" in
  Forall (fun r' => ~ selected r') (compliance_records db')
  /\ (forall r, In r (compliance_records db) -> selected r ->
                In (excuse (weather_analysis resp) r) (updated_records resp))
  /\ Forall (fun u => exists r, In r (compliance_records db) /\ selected r
                                /\ u = excuse (weather_analysis resp) r)
       (updated_records resp).
Proof.
  intros E Hid Hdate Hadv selected.
  apply check_weather_impact_Ok in E.
  destruct E as (supplier & coordinates & delivery' & wa & records' & updated
                 & _ & _ & Hd & _ & _ & Hsel & -> & ->).
  rewrite Hdate in Hd. inversion Hd; subst delivery'; clear Hd.
  cbn [weather_analysis updated_records compliance_records] in *.
  unfold reclassify in Hsel. rewrite Hid, Hadv in Hsel.
  inversion Hsel; subst; clear Hsel.
  set (chosen := fun r => (r_supplier_id r =? supplier_id request)
                          && date_eqb (r_date_recorded r) delivery
                          && (r_status r =? "non-compliant")%string).
  assert (Hchosen : forall r, chosen r = true <-> selected r).
  { intros r. unfold chosen, selected.
    rewrite !andb_true_iff, Z.eqb_eq, date_eqb_eq, String.eqb_eq. tauto. }
  split; [| split].
  - apply Forall_forall. intros r' Hin Hs.
    apply in_map_iff in Hin. destruct Hin as (r & <- & _).
    fold (chosen r) in Hs. destruct (chosen r) eqn:Ec.
    + destruct Hs as (_ & _ & Hst). discriminate Hst.
    + apply Hchosen in Hs. congruence.
  - intros r Hin Hs. apply in_map. apply filter_In. split; [exact Hin |].
    apply Hchosen. exact Hs.
  - apply Forall_forall. intros u Hu.
    apply in_map_iff in Hu. destruct Hu as (r & <- & Hr).
    apply filter_In in Hr. destruct Hr as [Hin Hc].
    exists r. split; [exact Hin |]. split; [apply Hchosen; exact Hc | reflexivity].
Qed.

Lemma date_selection_excuses_all_witness :
  exists db' resp,
    @check_weather_impact (sample_collaborators sample_storm) sample_db
      (sample_weather_request None) = Ok (db', resp)
    /\ Forall (fun r' => ~ (r_supplier_id r' = 1 /\ r_date_recorded r' = sample_date
                            /\ r_status r' = "non-compliant"))
         (compliance_records db').
Proof.
  eexists. eexists. split; [reflexivity |].
  exact (proj1 (@date_selection_excuses_all (sample_collaborators sample_storm)
                  sample_db _ (sample_weather_request None) _ sample_date
                  eq_refl eq_refl eq_refl eq_refl)).
Defined.

(** X13.  Coordinates count only in pairs: when the latitude or the
    longitude is missing, the request is served as if neither were given,
    from the geocoded country of the supplier, and it is refused with 400
    when the supplier is known and the geocoder finds nothing. *)
Theorem coordinates_need_both `{Collaborators} (db : database)
    (request : WeatherImpactRequest) :
  lat request = None \/ lon request = None ->
  check_weather_impact db request
  = check_weather_impact db
      (mkWeatherRequest (supplier_id request) (compliance_record_id request)
         None None (delivery_date request))
  /\ (forall supplier,
        query_supplier db (supplier_id request) = Some supplier ->
        get_coordinates_from_country (s_country supplier) = None ->
        check_weather_impact db request = Raise (HTTPException 400)).
Proof.
  intros Hmissing. unfold check_weather_impact.
  cbn [supplier_id compliance_record_id lat lon delivery_date].
  split.
  - destruct (lat request) as [la |], (lon request) as [lo |];
      try reflexivity.
    destruct Hmissing as [Hm | Hm]; discriminate Hm.
  - intros supplier Hs Hgeo. rewrite Hs, Hgeo.
    destruct (lat request) as [la |], (lon request) as [lo |]; try reflexivity.
    destruct Hmissing as [Hm | Hm]; discriminate Hm.
Qed.

Lemma coordinates_need_both_witness :
  @check_weather_impact (sample_collaborators sample_storm) sample_db
    (mkWeatherRequest 1 None (Some 40.7128%Q) None "2024-08-08")
  = Raise (HTTPException 400).
Proof.
  apply (proj2 (@coordinates_need_both (sample_collaborators sample_storm) sample_db
                  (mkWeatherRequest 1 None (Some 40.7128%Q) None "2024-08-08")
                  (or_intror eq_refl)) sample_supplier); reflexivity.
Defined.

(** The coordinates of an adjudication: those of the request when it
    gives both, those of the supplier's country otherwise. *)
Lemma located_coordinates `{Collaborators} (request : WeatherImpactRequest)
    (supplier : SupplierModel) (la lo : Q) :
  match lat request, lon request with
  | Some la, Some lo => Some (la, lo)
  | _, _ => get_coordinates_from_country (s_country supplier)
  end = Some (la, lo) ->
  match lat request, lon request with
  | Some la, Some lo => Ok (la, lo)
  | _, _ =>
      match get_coordinates_from_country (s_country supplier) with
      | Some c => Ok c
      | None => Raise (HTTPException 400)
      end
  end = Ok (la, lo).
Proof.
  destruct (lat request) as [la' |], (lon request) as [lo' |]; intros E;
    try (rewrite E; reflexivity).
  inversion E; reflexivity.
Qed.

(** X14.  The adjudication checks in this order: an unknown supplier is
    a 404 whatever else the request holds; then a request without latitude
    or without longitude, for a supplier whose country the geocoder does
    not find, is a 400; then, with the coordinates of the request or else
    of the country, a delivery date that does not parse is a 400; then a
    falsy weather document is a 503; and an exception of the detector on
    the document leaves the handler as it is. *)
Theorem adjudication_refusals `{Collaborators} (db : database)
    (request : WeatherImpactRequest) :
  (query_supplier db (supplier_id request) = None ->
     check_weather_impact db request = Raise (HTTPException 404))
  /\ (forall supplier,
        query_supplier db (supplier_id request) = Some supplier ->
        let located :=
          match lat request, lon request with
          | Some la, Some lo => Some (la, lo)
          | _, _ => get_coordinates_from_country (s_country supplier)
          end in
        (located = None ->
           check_weather_impact db request = Raise (HTTPException 400))
        /\ (forall la lo,
              located = Some (la, lo) ->
              (strptime_date (delivery_date request) = None ->
                 check_weather_impact db request = Raise (HTTPException 400))
              /\ (forall delivery,
                    strptime_date (delivery_date request) = Some delivery ->
                    (truthy (get_historical_weather la lo (delivery_date request))
                     = false ->
                       check_weather_impact db request = Raise (HTTPException 503))
                    /\ (forall e,
                          truthy (get_historical_weather la lo (delivery_date request))
                          = true ->
                          analyze_adverse_weather
                            (get_historical_weather la lo (delivery_date request))
                          = Raise e ->
                          check_weather_impact db request = Raise e)))).
Proof.
  unfold check_weather_impact. split.
  - intros ->. reflexivity.
  - intros supplier Hs. rewrite Hs. cbv zeta. split.
    + destruct (lat request) as [la |], (lon request) as [lo |]; intros E;
        try discriminate E; rewrite E; reflexivity.
    + intros la lo Hlocated. rewrite (located_coordinates _ _ _ _ Hlocated).
      cbn [bind fst snd]. split.
      * intros ->. reflexivity.
      * intros delivery ->. cbn [bind]. split.
        -- intros ->. reflexivity.
        -- intros e -> ->. reflexivity.
Qed.

Lemma adjudication_refusals_witness :
  query_supplier sample_db 1 = Some sample_supplier
  /\ @check_weather_impact (sample_collaborators (JObj [("data", JList [])])) sample_db
       (sample_weather_request None) = Raise IndexError
  /\ @check_weather_impact (sample_collaborators (JObj [("data", JList [])])) sample_db
       (mkWeatherRequest 1 None None (Some (-74.0060)%Q) "2024-08-08")
     = Raise (HTTPException 400).
Proof.
  split; [reflexivity |]. split.
  - destruct (proj2 (@adjudication_refusals
                       (sample_collaborators (JObj [("data", JList [])]))
                       sample_db (sample_weather_request None))
                sample_supplier eq_refl) as [_ Hlocated].
    destruct (Hlocated 40.7128%Q (-74.0060)%Q eq_refl) as [_ Hdate].
    destruct (Hdate sample_date eq_refl) as [_ Hraise].
    apply Hraise; reflexivity.
  - destruct (proj2 (@adjudication_refusals
                       (sample_collaborators (JObj [("data", JList [])]))
                       sample_db
                       (mkWeatherRequest 1 None None (Some (-74.0060)%Q) "2024-08-08"))
                sample_supplier eq_refl) as [Hnowhere _].
    apply Hnowhere. reflexivity.
Defined.

(** X15.  With an explicit record id other than 0, the adjudication
    completes only when a record with that id belongs to the supplier (a
    record of another supplier is not found: 404 once the weather at the
    coordinates of the request, or else of the supplier's country, has
    been analysed).  A record whose verdict is not non-compliant, or benign
    weather, leaves the store as it is; otherwise exactly that record is
    reported, in its excused form. *)
Theorem explicit_record_adjudication `{Collaborators} (db : database)
    (request : WeatherImpactRequest) (rid : Z) :
  compliance_record_id request = Some rid ->
  rid <> 0 ->
  let mine r := (r_id r =? rid) && (r_supplier_id r =? supplier_id request) in
  (find mine (compliance_records db) = None ->
     (forall db' resp, check_weather_impact db request <> Ok (db', resp))
     /\ (forall supplier la lo delivery wa,
           query_supplier db (supplier_id request) = Some supplier ->
           match lat request, lon request with
           | Some la, Some lo => Some (la, lo)
           | _, _ => get_coordinates_from_country (s_country supplier)
           end = Some (la, lo) ->
           strptime_date (delivery_date request) = Some delivery ->
           truthy (get_historical_weather la lo (delivery_date request)) = true ->
           analyze_adverse_weather (get_historical_weather la lo (delivery_date request))
           = Ok wa ->
           check_weather_impact db request = Raise (HTTPException 404)))
  /\ (forall record db' resp,
        find mine (compliance_records db) = Some record ->
        check_weather_impact db request = Ok (db', resp) ->
        (r_status record <> "non-compliant"
         \/ has_adverse_weather (weather_analysis resp) = false ->
           db' = db /\ updated_records resp = [])
        /\ (r_status record = "non-compliant" ->
            has_adverse_weather (weather_analysis resp) = true ->
              updated_records resp = [excuse (weather_analysis resp) record]
              /\ In (excuse (weather_analysis resp) record) (compliance_records db'))).
Proof.
  intros Hrid Hnz mine.
  assert (Hgiven : record_id_given (compliance_record_id request) = Some rid).
  { rewrite Hrid. simpl. apply Z.eqb_neq in Hnz. rewrite Hnz. reflexivity. }
  split.
  - intros Hnone. split.
    + intros db' resp E. apply check_weather_impact_Ok in E.
      destruct E as (supplier & coordinates & delivery & wa & records' & updated
                     & _ & _ & _ & _ & _ & Hsel & _).
      unfold reclassify in Hsel. rewrite Hgiven in Hsel. fold mine in Hsel.
      rewrite Hnone in Hsel. discriminate Hsel.
    + intros supplier la lo delivery wa Hs Hlocated Hd Ht Hwa.
      unfold check_weather_impact. rewrite Hs.
      rewrite (located_coordinates _ _ _ _ Hlocated). cbn [bind fst snd].
      rewrite Hd. cbn [bind]. rewrite Ht. cbn [negb]. rewrite Hwa. cbn [bind].
      unfold reclassify. rewrite Hgiven. fold mine. rewrite Hnone. reflexivity.
  - intros record db' resp Hfound E. apply check_weather_impact_Ok in E.
    destruct E as (supplier & coordinates & delivery & wa & records' & updated
                   & _ & _ & _ & _ & _ & Hsel & -> & ->).
    cbn [weather_analysis updated_records compliance_records].
    unfold reclassify in Hsel. rewrite Hgiven in Hsel. fold mine in Hsel.
    rewrite Hfound in Hsel. split.
    + intros Hno.
      assert (Hc : has_adverse_weather wa && (r_status record =? "non-compliant")%string
                   = false).
      { destruct Hno as [Hst | Hb].
        - apply String.eqb_neq in Hst. rewrite Hst. apply andb_false_r.
        - rewrite Hb. reflexivity. }
      rewrite Hc in Hsel. inversion Hsel; subst.
      split; [destruct db; reflexivity | reflexivity].
    + intros Hst Hadv. apply String.eqb_eq in Hst. rewrite Hadv, Hst in Hsel.
      inversion Hsel; subst. split; [reflexivity |].
      apply in_update_first. exact Hfound.
Qed.

Lemma explicit_record_adjudication_witness :
  (7 <> 0)
  /\ find (fun r => (r_id r =? 7) && (r_supplier_id r =? 1)) (compliance_records sample_db)
     = None
  /\ @check_weather_impact (sample_collaborators sample_storm) sample_db
       (sample_weather_request (Some 7)) = Raise (HTTPException 404).
Proof.
  split; [discriminate |]. split; [reflexivity |].
  destruct (@explicit_record_adjudication (sample_collaborators sample_storm) sample_db
              (sample_weather_request (Some 7)) 7 eq_refl) as [Hmissing _].
  { discriminate. }
  destruct (Hmissing eq_refl) as [_ Hnot_found].
  eapply (Hnot_found sample_supplier 40.7128%Q (-74.0060)%Q sample_date); reflexivity.
Defined.

(** ** Single-record creation *)



(** ** The weather service behind the adjudication *)

(** The request falls back to the mock document unless the API answers
    200 with a body that decodes, in which case it returns that body. *)
Lemma get_historical_weather_cases (self : WeatherService.t) (la lo : Q) (d : string) :
  WeatherService.get_historical_weather self la lo d = _mock_weather_data
  \/ exists key dt document,
       WeatherService.api_key self = Some key /\ key <> ""
       /\ WeatherService.strptime self d = Some dt
       /\ WeatherService.requests_get self la lo dt key = Ok (200, Ok document)
       /\ WeatherService.get_historical_weather self la lo d = document.
Proof.
  unfold WeatherService.get_historical_weather.
  destruct (WeatherService.api_key self) as [key |] eqn:Ekey; [| left; reflexivity].
  destruct (key =? "")%string eqn:Ek; [left; reflexivity |].
  destruct (WeatherService.strptime self d) as [dt |] eqn:Edt; [| left; reflexivity].
  destruct (WeatherService.requests_get self la lo dt key) as [[code body] | e] eqn:Eget;
    [| left; reflexivity].
  destruct (code =? 200) eqn:Ec; [| left; reflexivity].
  destruct body as [document | e]; [| left; reflexivity].
  right. exists key, dt, document. apply Z.eqb_eq in Ec. subst code.
  apply String.eqb_neq in Ek. repeat split; try assumption; reflexivity.
Qed.

Lemma analyze_mock `{Collaborators} :
  analyze_adverse_weather _mock_weather_data
  = Ok (mkAnalysis false [] "none"
          "No adverse weather conditions detected that would impact delivery."
          (Some (mkEcho "clear sky" (JFloat 25.0) (JFloat 3.5) (JBool true)))).
Proof. reflexivity. Qed.

(** X17.  A weather service without an API key, or whose API never
    answers 200 with a body that decodes, never excuses a record: every
    adjudication that completes leaves the store exactly as it was, reports
    no adverse weather and no update, and marks its analysis as made on
    mock data. *)
Theorem degraded_weather_never_excuses (self : WeatherService.t) (db db' : database)
    (request : WeatherImpactRequest) (resp : WeatherImpactResponse) :
  WeatherService.api_key self = None
  \/ WeatherService.api_key self = Some ""
  \/ (forall la lo dt key code body,
        WeatherService.requests_get self la lo dt key = Ok (code, body) ->
        code <> 200 \/ exists e, body = Raise e) ->
  @check_weather_impact (WeatherService.collaborators self) db request = Ok (db', resp) ->
  db' = db
  /\ status_updated resp = false
  /\ updated_records resp = []
  /\ has_adverse_weather (weather_analysis resp) = false
  /\ severity (weather_analysis resp) = "none"
  /\ option_map mock_data (echo (weather_analysis resp)) = Some (JBool true).
Proof.
  intros Hdegraded E.
  assert (Hmock : forall la lo d,
             WeatherService.get_historical_weather self la lo d = _mock_weather_data).
  { intros la lo d.
    destruct (get_historical_weather_cases self la lo d)
      as [Hm | (key & dt & document & Hkey & Hne & _ & Hget & _)]; [exact Hm |].
    exfalso. destruct Hdegraded as [Hnone | [Hempty | Hnever]].
    - rewrite Hnone in Hkey. discriminate Hkey.
    - rewrite Hempty in Hkey. inversion Hkey. congruence.
    - destruct (Hnever _ _ _ _ _ _ Hget) as [Hcode | [e He]];
        [apply Hcode; reflexivity | discriminate He]. }
  apply check_weather_impact_Ok in E.
  destruct E as (supplier & coordinates & delivery & wa & records' & updated
                 & _ & _ & _ & _ & Hwa & Hsel & -> & ->).
  cbn [get_historical_weather WeatherService.collaborators] in Hwa.
  rewrite Hmock, analyze_mock in Hwa. inversion Hwa; subst wa; clear Hwa.
  apply reclassify_benign in Hsel; [| reflexivity].
  destruct Hsel as [-> ->].
  cbn [status_updated updated_records weather_analysis has_adverse_weather severity echo].
  repeat split. destruct db; reflexivity.
Qed.

Lemma degraded_weather_never_excuses_witness :
  exists resp,
    @check_weather_impact
      (WeatherService.collaborators
         (WeatherService.mk None (fun _ => Ok None) (fun _ _ _ _ => Raise TypeError)
            (fun _ => Some sample_date) (fun _ => "")))
      sample_db (sample_weather_request None) = Ok (sample_db, resp)
    /\ status_updated resp = false.
Proof.
  eexists. split; [reflexivity |].
  exact (proj1 (proj2
           (degraded_weather_never_excuses
              (WeatherService.mk None (fun _ => Ok None) (fun _ _ _ _ => Raise TypeError)
                 (fun _ => Some sample_date) (fun _ => ""))
              sample_db _ (sample_weather_request None) _
              (or_introl eq_refl) eq_refl))).
Defined.

Lemma bind_Raise {A B : Type} (m : outcome A) (k : A -> outcome B) (e : exn) :
  bind m k = Raise e -> m = Raise e \/ exists a, m = Ok a /\ k a = Raise e.
Proof.
  destruct m as [a | e']; simpl; intros E.
  - right. exists a. split; [reflexivity | exact E].
  - left. inversion E. reflexivity.
Qed.

Ltac builtin_raise H :=
  unfold py_in, py_get, py_getitem, py_getitem0, py_lower, py_number in H;
  solve [ repeat first
            [ discriminate H
            | progress simpl in H
            | match type of H with
              | context [match ?t with _ => _ end] => destruct t
              end ] ].

Ltac raise_inv H :=
  cbv beta zeta in H;
  lazymatch type of H with
  | bind _ _ = Raise _ =>
      apply bind_Raise in H;
      let x := fresh "x" in
      let Hx := fresh "Hx" in
      destruct H as [H | (x & Hx & H)]; raise_inv H
  | (if ?c then _ else _) = Raise _ => destruct c; raise_inv H
  | Ok _ = Raise _ => discriminate H
  | precipitation_amount _ = Raise _ => unfold precipitation_amount in H; raise_inv H
  | _ => builtin_raise H
  end.

(** The detector raises the exceptions of the run time only. *)
Lemma analyze_never_raises_http `{Collaborators} (weather_data : json) (c : Z) :
  analyze_adverse_weather weather_data <> Raise (HTTPException c).
Proof.
  unfold analyze_adverse_weather. intros E. raise_inv E.
Qed.

Lemma reclassify_raises_404 (records : list ComplianceRecordModel) (sid : Z)
    (rid : option Z) (delivery : date) (wa : analysis) (e : exn) :
  reclassify records sid rid delivery wa = Raise e -> e = HTTPException 404.
Proof.
  unfold reclassify.
  destruct (record_id_given rid).
  - destruct (find _ records).
    + destruct (has_adverse_weather wa && _); discriminate.
    + intros E. inversion E. reflexivity.
  - destruct (has_adverse_weather wa); discriminate.
Qed.

(** X18.  The adjudication answers 503 only when the API itself answered
    200 with a document that is falsy (null, an empty map or the like): the
    mock fallback makes the refusal unreachable for a missing key, a failed
    request or any other status. *)
Theorem unavailable_only_for_empty_answer (self : WeatherService.t) (db : database)
    (request : WeatherImpactRequest) :
  @check_weather_impact (WeatherService.collaborators self) db request
  = Raise (HTTPException 503) ->
  exists key dt la lo document,
    WeatherService.api_key self = Some key /\ key <> ""
    /\ WeatherService.strptime self (delivery_date request) = Some dt
    /\ WeatherService.requests_get self la lo dt key = Ok (200, Ok document)
    /\ truthy document = false.
Proof.
  unfold check_weather_impact.
  cbn [get_historical_weather get_coordinates_from_country strptime_date
       WeatherService.collaborators].
  destruct (query_supplier db (supplier_id request)) as [supplier |];
    [| intros E; discriminate E].
  intros E. apply bind_Raise in E. destruct E as [E | (coordinates & _ & E)].
  { destruct (lat request), (lon request);
      try discriminate E;
      destruct (WeatherService.get_coordinates_from_country self (s_country supplier));
      discriminate E. }
  cbv beta in E. apply bind_Raise in E. destruct E as [E | (delivery & Hd & E)].
  { destruct (WeatherService.strptime self (delivery_date request)); discriminate E. }
  cbv beta zeta in E.
  destruct (truthy (WeatherService.get_historical_weather self (fst coordinates)
                      (snd coordinates) (delivery_date request))) eqn:Et.
  - exfalso. cbn [negb] in E.
    apply bind_Raise in E. destruct E as [E | (wa & _ & E)].
    + exact (analyze_never_raises_http _ _ E).
    + cbv beta in E. apply bind_Raise in E. destruct E as [E | (selection & _ & E)].
      * apply reclassify_raises_404 in E. discriminate E.
      * discriminate E.
  - destruct (get_historical_weather_cases self (fst coordinates) (snd coordinates)
                (delivery_date request))
      as [Hm | (key & dt & document & Hkey & Hne & Hdt & Hget & Hdoc)].
    + rewrite Hm in Et. discriminate Et.
    + exists key, dt, (fst coordinates), (snd coordinates), document.
      rewrite Hdoc in Et. repeat split; assumption.
Qed.

Lemma unavailable_only_for_empty_answer_witness :
  @check_weather_impact
    (WeatherService.collaborators
       (WeatherService.mk (Some "key") (fun _ => Ok None)
          (fun _ _ _ _ => Ok (200, Ok (JObj [])))
          (fun _ => Some sample_date) (fun _ => "")))
    sample_db (sample_weather_request None) = Raise (HTTPException 503)
  /\ exists document,
       Ok (200, Ok (JObj [])) = Ok (200, Ok document) /\ truthy document = false.
Proof.
  split; [reflexivity |].
  destruct (unavailable_only_for_empty_answer
              (WeatherService.mk (Some "key") (fun _ => Ok None)
                 (fun _ _ _ _ => Ok (200, Ok (JObj [])))
                 (fun _ => Some sample_date) (fun _ => ""))
              sample_db (sample_weather_request None) eq_refl)
    as (key & dt & la & lo & document & _ & _ & _ & Hget & Hfalsy).
  exists document. split; [exact Hget | exact Hfalsy].
Defined.

(** X19.  A geocoder that raises is treated like an unknown place: with
    a coordinate missing in the request, the adjudication for a known
    supplier is refused with 400, and the exception does not escape. *)
Theorem geocoder_failure_is_bad_request (self : WeatherService.t) (db : database)
    (request : WeatherImpactRequest) (supplier : SupplierModel) :
  query_supplier db (supplier_id request) = Some supplier ->
  lat request = None \/ lon request = None ->
  WeatherService.geocode self (s_country supplier) = Ok None
  \/ (exists e, WeatherService.geocode self (s_country supplier) = Raise e) ->
  @check_weather_impact (WeatherService.collaborators self) db request
  = Raise (HTTPException 400).
Proof.
  intros Hs Hmissing Hgeo.
  assert (Hnone : WeatherService.get_coordinates_from_country self (s_country supplier)
                  = None).
  { unfold WeatherService.get_coordinates_from_country.
    destruct Hgeo as [-> | [e ->]]; reflexivity. }
  unfold check_weather_impact. rewrite Hs.
  cbn [get_coordinates_from_country WeatherService.collaborators].
  rewrite Hnone.
  destruct (lat request) as [la |], (lon request) as [lo |]; try reflexivity.
  destruct Hmissing as [Hm | Hm]; discriminate Hm.
Qed.

Lemma geocoder_failure_is_bad_request_witness :
  query_supplier sample_db 1 = Some sample_supplier
  /\ @check_weather_impact
       (WeatherService.collaborators
          (WeatherService.mk (Some "key") (fun _ => Raise TypeError)
             (fun _ _ _ _ => Ok (200, Ok sample_storm))
             (fun _ => Some sample_date) (fun _ => "")))
       sample_db (mkWeatherRequest 1 None None None "2024-08-08")
     = Raise (HTTPException 400).
Proof.
  split; [reflexivity |].
  apply (geocoder_failure_is_bad_request
           (WeatherService.mk (Some "key") (fun _ => Raise TypeError)
              (fun _ _ _ _ => Ok (200, Ok sample_storm))
              (fun _ => Some sample_date) (fun _ => ""))
           sample_db (mkWeatherRequest 1 None None None "2024-08-08") sample_supplier).
  - reflexivity.
  - left. reflexivity.
  - right. exists TypeError. reflexivity.
Defined.

(** ** The compliance summary *)

Lemma each_Ok {A B : Type} (f : A -> outcome B) (l : list A) (ys : list B) :
  each f l = Ok ys <-> Forall2 (fun x y => f x = Ok y) l ys.
Proof.
  revert ys. induction l as [| x l IH]; intros ys; simpl.
  - split.
    + intros E. inversion E. constructor.
    + intros F. inversion F. reflexivity.
  - split.
    + intros E. bind_inv E as y Hy. bind_inv E as ys' Hys. inversion E; subst.
      constructor; [exact Hy | apply IH; exact Hys].
    + intros F. inversion F as [| x' y l' ys' Hy Hrest]; subst.
      rewrite Hy. simpl. apply IH in Hrest. rewrite Hrest. reflexivity.
Qed.

Lemma each_total {A B : Type} (f : A -> outcome B) (l : list A) :
  Forall (fun x => exists y, f x = Ok y) l -> exists ys, each f l = Ok ys.
Proof.
  induction 1 as [| x l [y Hy] _ [ys Hys]]; simpl.
  - exists []. reflexivity.
  - exists (y :: ys). rewrite Hy. simpl. rewrite Hys. reflexivity.
Qed.

Lemma filter_disjoint_length {A : Type} (p q : A -> bool) (l : list A) :
  (forall x, p x = true -> q x = false) ->
  (List.length (filter p l) + List.length (filter q l) <= List.length l)%nat.
Proof.
  intros Hpq. induction l as [| x l IH]; simpl; [lia |].
  destruct (p x) eqn:Ep.
  - rewrite (Hpq x Ep). simpl. lia.
  - destruct (q x); simpl; lia.
Qed.

Lemma Forall2_map_left {A B C : Type} (g : A -> B) (P : B -> C -> Prop)
    (l : list A) (ys : list C) :
  Forall2 P (map g l) ys <-> Forall2 (fun x y => P (g x) y) l ys.
Proof.
  revert ys. induction l as [| x l IH]; intros ys; simpl; split; intros F;
    inversion F; subst; constructor; try assumption; apply IH; assumption.
Qed.

(** What a completed summary of a store with suppliers computed. *)
Lemma get_compliance_summary_Ok `{Arithmetic} (db : database) (thirty_days_ago : date)
    (summary : json) :
  suppliers db <> [] ->
  get_compliance_summary db thirty_days_ago = Ok summary ->
  exists compliance_scores scores,
    Forall2 (fun s n => py_number (s_compliance_score s) = Ok n) (suppliers db) scores
    /\ let high := List.length (filter (fun n => lt_int n 60) scores) in
       let compliant := List.length (filter (fun n => negb (lt_int n 80)) scores) in
       let recent :=
         filter (fun r => date_leb thirty_days_ago (r_date_recorded r))
           (compliance_records db) in
       let recent_compliant :=
         List.length (filter (fun r => (r_status r =? "compliant")%string) recent) in
       summary
       = JObj [ ("total_suppliers", nat_json (List.length (suppliers db)));
                ("average_compliance_score",
                 number_json
                   (round2 match compliance_scores with
                           | [] => NInt 0
                           | _ :: _ => true_divide (py_sum compliance_scores)
                                         (List.length compliance_scores)
                           end));
                ("high_risk_suppliers", nat_json high);
                ("compliant_suppliers", nat_json compliant);
                ("recent_compliance_rate",
                 number_json
                   (round2 (if (0 <? List.length recent)%nat
                            then percentage recent_compliant (List.length recent)
                            else NInt 0)));
                ("recent_records_count", nat_json (List.length recent));
                ("summary",
                 JStr (nat_str compliant ++ " out of "
                         ++ nat_str (List.length (suppliers db))
                         ++ " suppliers are compliant (" ++ at_least_sign
                         ++ "80 score)")) ].
Proof.
  intros Hne. unfold get_compliance_summary.
  destruct (suppliers db) as [| s0 rest] eqn:Es; [contradiction |].
  cbv zeta. change (List.length (s0 :: rest) =? 0)%nat with false. cbv iota.
  match goal with
  | |- match ?attempt with _ => _ end = _ -> _ => destruct attempt as [doc | e] eqn:Ea
  end; [| discriminate].
  intros E. inversion E; subst doc; clear E.
  bind_inv Ea as compliance_scores Hsum. bind_inv Ea as scores Hscores.
  apply each_Ok in Hscores. apply Forall2_map_left in Hscores.
  inversion Ea; subst. exists compliance_scores, scores.
  split; [exact Hscores | reflexivity].
Qed.

Lemma Forall_filter {A : Type} (P : A -> Prop) (p : A -> bool) (l : list A) :
  Forall P l -> Forall P (filter p l).
Proof.
  intros F. apply Forall_forall. intros x Hx. apply filter_In in Hx.
  rewrite Forall_forall in F. apply F. exact (proj1 Hx).
Qed.

(** X20.  The summary of a store without suppliers is the fixed empty
    summary.  With suppliers, it completes exactly when every supplier has
    a number as its score, and answers 500 otherwise: the average is
    written to skip a supplier without a score, but the count of high-risk
    suppliers compares every score with 60 and raises on a missing one. *)
Theorem summary_needs_every_score `{Arithmetic} (db : database) (thirty_days_ago : date) :
  (suppliers db = [] ->
     get_compliance_summary db thirty_days_ago
     = Ok (JObj [ ("total_suppliers", JInt 0);
                  ("average_compliance_score", JInt 0);
                  ("high_risk_suppliers", JInt 0);
                  ("compliant_suppliers", JInt 0);
                  ("summary", JStr "No suppliers found") ]))
  /\ (suppliers db <> [] ->
        ((exists summary, get_compliance_summary db thirty_days_ago = Ok summary)
         <-> Forall (fun s => exists n, py_number (s_compliance_score s) = Ok n)
               (suppliers db))
        /\ ((exists summary, get_compliance_summary db thirty_days_ago = Ok summary)
            \/ get_compliance_summary db thirty_days_ago = Raise (HTTPException 500))).
Proof.
  split.
  - intros Hs. unfold get_compliance_summary. rewrite Hs. reflexivity.
  - intros Hne. split; [split |].
    + intros [summary Hok].
      destruct (get_compliance_summary_Ok db thirty_days_ago summary Hne Hok)
        as (compliance_scores & scores & Hscores & _).
      clear Hok Hne. induction Hscores as [| s n l ns Hn _ IH]; constructor.
      * exists n. exact Hn.
      * exact IH.
    + intros Hall. unfold get_compliance_summary.
      destruct (suppliers db) as [| s0 rest] eqn:Es; [contradiction |].
      cbv zeta. change (List.length (s0 :: rest) =? 0)%nat with false. cbv iota.
      assert (Hall' : Forall (fun v => exists n, py_number v = Ok n)
                        (map s_compliance_score (s0 :: rest))).
      { apply Forall_forall. intros v Hv. apply in_map_iff in Hv.
        destruct Hv as (s & <- & Hin). rewrite Forall_forall in Hall.
        apply Hall. exact Hin. }
      destruct (each_total py_number _ (Forall_filter _ (fun v => negb (is_none v)) _ Hall'))
        as [compliance_scores Hcs].
      destruct (each_total py_number _ Hall') as [scores Hsc].
      rewrite Hcs. cbn [bind]. rewrite Hsc. cbn [bind].
      eexists. reflexivity.
    + destruct (get_compliance_summary db thirty_days_ago) as [summary | e] eqn:E.
      * left. exists summary. reflexivity.
      * right. unfold get_compliance_summary in E.
        match type of E with
        | match ?attempt with _ => _ end = _ => destruct attempt
        end; [discriminate E | symmetry; exact E].
Qed.

Lemma summary_needs_every_score_witness :
  [sample_supplier; mkSupplier 2 "Borealis" "Norway" JNull] <> []
  /\ @get_compliance_summary sample_arithmetic
       (mkDatabase [sample_supplier; mkSupplier 2 "Borealis" "Norway" JNull] [] 1 0)
       (mkDate 2024 7 9)
     = Raise (HTTPException 500).
Proof.
  split; [discriminate |].
  destruct (proj2 (@summary_needs_every_score sample_arithmetic
                     (mkDatabase [sample_supplier; mkSupplier 2 "Borealis" "Norway" JNull]
                        [] 1 0)
                     (mkDate 2024 7 9)))
    as [_ [[summary Hok] | Hfail]].
  - discriminate.
  - discriminate Hok.
  - exact Hfail.
Defined.

Lemma filter_numbers_length {A : Type} (f : A -> outcome number) (p : number -> bool)
    (l : list A) (ns : list number) :
  Forall2 (fun x n => f x = Ok n) l ns ->
  List.length (filter p ns)
  = List.length (filter (fun x => match f x with Ok n => p n | Raise _ => false end) l).
Proof.
  induction 1 as [| x n l ns Hn _ IH]; simpl; [reflexivity |].
  rewrite Hn. destruct (p n); simpl; rewrite IH; reflexivity.
Qed.

(** X21.  In a completed summary of a store with suppliers, the total is
    the number of suppliers, the high-risk count is the number of suppliers
    whose score is below 60 and the compliant count the number whose score
    is at least 80, so the two counts together never exceed the total; the
    recent count is the number of records dated on or after the day thirty
    days ago. *)
Theorem summary_counts `{Arithmetic} (db : database) (thirty_days_ago : date)
    (summary : json) :
  suppliers db <> [] ->
  get_compliance_summary db thirty_days_ago = Ok summary ->
  let score_is (test : number -> bool) (s : SupplierModel) :=
    match py_number (s_compliance_score s) with
    | Ok n => test n
    | Raise _ => false
    end in
  let high := List.length (filter (score_is (fun n => lt_int n 60)) (suppliers db)) in
  let compliant :=
    List.length (filter (score_is (fun n => negb (lt_int n 80))) (suppliers db)) in
  py_get summary "total_suppliers" JNull = Ok (nat_json (List.length (suppliers db)))
  /\ py_get summary "high_risk_suppliers" JNull = Ok (nat_json high)
  /\ py_get summary "compliant_suppliers" JNull = Ok (nat_json compliant)
  /\ py_get summary "recent_records_count" JNull
     = Ok (nat_json
             (List.length
                (filter (fun r => date_leb thirty_days_ago (r_date_recorded r))
                   (compliance_records db))))
  /\ (high + compliant <= List.length (suppliers db))%nat.
Proof.
  intros Hne Hok score_is high compliant.
  destruct (get_compliance_summary_Ok db thirty_days_ago summary Hne Hok)
    as (compliance_scores & scores & Hscores & Hsummary).
  cbv zeta in Hsummary. subst summary.
  unfold high, compliant, score_is.
  rewrite <- (filter_numbers_length _ (fun n => lt_int n 60) _ _ Hscores).
  rewrite <- (filter_numbers_length _ (fun n => negb (lt_int n 80)) _ _ Hscores).
  repeat split.
  rewrite (Forall2_length Hscores).
  apply filter_disjoint_length.
  intros n Hlt. apply negb_false_iff.
  apply lt_int_spec in Hlt. apply lt_int_spec. q_arith.
Qed.

Lemma summary_counts_witness :
  suppliers sample_db <> []
  /\ exists summary,
       @get_compliance_summary sample_arithmetic sample_db (mkDate 2024 7 9) = Ok summary
       /\ py_get summary "compliant_suppliers" JNull = Ok (JInt 1)
       /\ py_get summary "recent_records_count" JNull = Ok (JInt 2).
Proof.
  split; [discriminate |].
  eexists. split; [reflexivity |].
  match goal with
  | |- py_get ?doc _ _ = _ /\ _ =>
      destruct (@summary_counts sample_arithmetic sample_db (mkDate 2024 7 9) doc)
        as (_ & _ & Hcompliant & Hrecent & _)
  end.
  - discriminate.
  - reflexivity.
  - split; [exact Hcompliant | exact Hrecent].
Defined.

(** ** Ingestion and the score *)



(** ** Histories *)

(** A record after some steps: unchanged, or the excused copy of a record
    that was non-compliant. *)
Lemma run_records `{Collaborators} (db db' : database) (e : event) :
  run db e = Ok db' ->
  exists kept created,
    compliance_records db' = (kept ++ created)%list
    /\ Forall2 (fun r r' => r' = r
                            \/ (r_status r = "non-compliant"
                                /\ exists wa, r' = excuse wa r))
         (compliance_records db) kept.
Proof.
  destruct e as [request ai | sid record | request]; simpl; intros E;
    bind_inv E as r Hr; destruct r as [db1 resp]; inversion E; subst db1; clear E.
  - apply check_compliance_Ok in Hr.
    destruct Hr as (supplier & kvs & n1 & n2 & stored & _ & -> & Hr).
    cbv zeta in Hr. destruct Hr as (_ & _ & _ & -> & _).
    eexists. eexists. split; [reflexivity |].
    apply Forall2_diag. intros a. left. reflexivity.
  - unfold create_compliance_record in Hr.
    destruct (query_supplier db sid); [| discriminate Hr].
    inversion Hr; subst; clear Hr.
    eexists. eexists. split; [reflexivity |].
    apply Forall2_diag. intros a. left. reflexivity.
  - apply check_weather_impact_Ok in Hr.
    destruct Hr as (supplier & coordinates & delivery & wa & records' & updated
                    & _ & _ & _ & _ & _ & Hsel & -> & _).
    exists records', []. split; [rewrite app_nil_r; reflexivity |].
    eapply Forall2_impl; [| apply (reclassify_pointwise _ _ _ _ _ _ _ Hsel)].
    intros a b [-> | (_ & _ & Hst & ->)]; [left; reflexivity | right].
    split; [exact Hst | exists wa; reflexivity].
Qed.

Lemma Forall2_compose {A : Type} (R : A -> A -> Prop) (l k m : list A) :
  (forall a b c, R a b -> R b c -> R a c) ->
  Forall2 R l k -> Forall2 R k m -> Forall2 R l m.
Proof.
  intros Htrans Hlk. revert m. induction Hlk as [| a b l k Hab _ IH]; intros m Hkm.
  - inversion Hkm. constructor.
  - inversion Hkm as [| b' c k' m' Hbc Hrest]; subst.
    constructor; [eapply Htrans; eassumption | apply IH; exact Hrest].
Qed.

(** X23.  Over any history of ingestions, single creations and
    adjudications that complete, the records of the start are all still
    there, in the same places and before every record created since; each
    is unchanged or is the excused copy of what it was when it was
    non-compliant.  So a verdict changes at most once, from non-compliant
    to excused-weather, and a compliant or excused record keeps its
    verdict for ever. *)
Theorem history_keeps_records `{Collaborators} (db db' : database) (events : list event) :
  run_all db events = Ok db' ->
  exists kept created,
    compliance_records db' = (kept ++ created)%list
    /\ Forall2 (fun r r' => r' = r
                            \/ (r_status r = "non-compliant"
                                /\ exists wa, r' = excuse wa r))
         (compliance_records db) kept.
Proof.
  revert db. induction events as [| e events IH]; intros db; simpl; intros E.
  - inversion E; subst. exists (compliance_records db'), [].
    split; [rewrite app_nil_r; reflexivity |].
    apply Forall2_diag. intros a. left. reflexivity.
  - bind_inv E as db1 Hstep.
    apply run_records in Hstep. destruct Hstep as (kept1 & created1 & H1 & F1).
    apply IH in E. destruct E as (kept & created & H2 & F2).
    rewrite H1 in F2. apply Forall2_app_inv_l in F2.
    destruct F2 as (kept2 & created2 & Fk & _ & ->).
    exists kept2, (created2 ++ created)%list.
    split; [rewrite H2, app_assoc; reflexivity |].
    eapply Forall2_compose; [| exact F1 | exact Fk].
    intros a b c [-> | [Hst [wa ->]]] [-> | [Hst' [wa' ->]]].
    + left. reflexivity.
    + right. split; [exact Hst' | exists wa'; reflexivity].
    + right. split; [exact Hst | exists wa; reflexivity].
    + discriminate Hst'.
Qed.

Lemma history_keeps_records_witness :
  exists db',
    @run_all (sample_collaborators sample_storm) sample_db
      [ Adjudicate (sample_weather_request None);
        Ingest (mkCheckRequest 1 sample_batch) (sample_opinion (JInt 90));
        Adjudicate (sample_weather_request None) ] = Ok db'
    /\ exists kept created,
         compliance_records db' = (kept ++ created)%list
         /\ List.length kept = 2%nat.
Proof.
  eexists. split; [reflexivity |].
  destruct (@history_keeps_records (sample_collaborators sample_storm) sample_db _
              [ Adjudicate (sample_weather_request None);
                Ingest (mkCheckRequest 1 sample_batch) (sample_opinion (JInt 90));
                Adjudicate (sample_weather_request None) ] eq_refl)
    as (kept & created & Hsplit & Hkept).
  exists kept, created. split; [exact Hsplit |].
  symmetry. exact (Forall2_length Hkept).
Defined.
